(** * MLlib.loss_func: a shallow embedding of the loss functions

    The module [MLlib/loss_func.py] holds one autograd node
    ([MeanSquaredError], with its alias [MSELoss]) and the classical
    loss families that work on raw numpy arrays.  This development
    embeds the numpy operations the module calls, the module's
    functions themselves, and proves the properties the specification
    states about them.

    Numbers.  numpy computes on IEEE-754 doubles.  The embedding keeps
    the exceptional values of that arithmetic (the two infinities and
    NaN, with the rules by which they arise and propagate) and
    idealises the finite values as real numbers: rounding, overflow and
    the sign of zero are not modelled. *)

From Stdlib Require Import Reals Lra Lia List.
From stdpp Require Import base list strings gmap.

(** ** Floating-point values, rounding idealised *)

Module NpFloat.

Inductive npfloat : Type :=
  | Fin (r : R)
  | PInf
  | NInf
  | NaN.

(** The sign of a real number, as a three-way comparison with zero. *)
Definition Rcmp0 (r : R) : comparison :=
  match total_order_T r 0 with
  | inleft (left _) => Lt
  | inleft (right _) => Eq
  | inright _ => Gt
  end.

Definition fneg (x : npfloat) : npfloat :=
  match x with
  | Fin r => Fin (- r)
  | PInf => NInf
  | NInf => PInf
  | NaN => NaN
  end.

Definition fadd (x y : npfloat) : npfloat :=
  match x, y with
  | NaN, _ | _, NaN => NaN
  | Fin a, Fin b => Fin (a + b)
  | PInf, NInf | NInf, PInf => NaN
  | PInf, _ | _, PInf => PInf
  | NInf, _ | _, NInf => NInf
  end.

Definition fsub (x y : npfloat) : npfloat := fadd x (fneg y).

(** An infinity of sign [pos] scaled by the finite factor [a]. *)
Definition inf_scaled (pos : bool) (a : R) : npfloat :=
  match Rcmp0 a with
  | Eq => NaN
  | Gt => if pos then PInf else NInf
  | Lt => if pos then NInf else PInf
  end.

Definition fmul (x y : npfloat) : npfloat :=
  match x, y with
  | NaN, _ | _, NaN => NaN
  | Fin a, Fin b => Fin (a * b)
  | Fin a, PInf | PInf, Fin a => inf_scaled true a
  | Fin a, NInf | NInf, Fin a => inf_scaled false a
  | PInf, PInf | NInf, NInf => PInf
  | PInf, NInf | NInf, PInf => NInf
  end.

(** Division: a finite value over zero is an infinity (NaN for 0/0),
    a finite value over an infinity is zero, an infinity over an
    infinity is NaN. *)
Definition fdiv (x y : npfloat) : npfloat :=
  match x, y with
  | NaN, _ | _, NaN => NaN
  | Fin a, Fin b =>
      match Rcmp0 b with
      | Eq => match Rcmp0 a with Eq => NaN | Gt => PInf | Lt => NInf end
      | _ => Fin (a / b)
      end
  | Fin _, (PInf | NInf) => Fin 0
  | PInf, Fin b => match Rcmp0 b with Lt => NInf | _ => PInf end
  | NInf, Fin b => match Rcmp0 b with Lt => PInf | _ => NInf end
  | (PInf | NInf), (PInf | NInf) => NaN
  end.

Definition fabs (x : npfloat) : npfloat :=
  match x with
  | Fin r => Fin (Rabs r)
  | PInf | NInf => PInf
  | NaN => NaN
  end.

(** [x ** 2] and [np.power(x, 2)], [np.square(x)]. *)
Definition fsquare (x : npfloat) : npfloat := fmul x x.

(** [np.sign]. *)
Definition fsign (x : npfloat) : npfloat :=
  match x with
  | Fin r => match Rcmp0 r with Lt => Fin (-1) | Eq => Fin 0 | Gt => Fin 1 end
  | PInf => Fin 1
  | NInf => Fin (-1)
  | NaN => NaN
  end.

(** Comparisons: every ordered comparison with NaN is false, and
    [!=] with NaN is true. *)
Definition fle (x y : npfloat) : bool :=
  match x, y with
  | NaN, _ | _, NaN => false
  | Fin a, Fin b => if Rle_dec a b then true else false
  | NInf, _ | _, PInf => true
  | _, _ => false
  end.

Definition fne (x y : npfloat) : bool :=
  match x, y with
  | NaN, _ | _, NaN => true
  | Fin a, Fin b => if Req_dec_T a b then false else true
  | PInf, PInf | NInf, NInf => false
  | _, _ => true
  end.

(** The elementary functions the module calls. *)
Definition flog (x : npfloat) : npfloat :=
  match x with
  | Fin r => match Rcmp0 r with Lt => NaN | Eq => NInf | Gt => Fin (ln r) end
  | PInf => PInf
  | NInf | NaN => NaN
  end.

Definition fsqrt (x : npfloat) : npfloat :=
  match x with
  | Fin r => match Rcmp0 r with Lt => NaN | _ => Fin (sqrt r) end
  | PInf => PInf
  | NInf | NaN => NaN
  end.

(** [x ** 0.5]: as [fsqrt], except that IEEE pow sends -inf to +inf. *)
Definition fpow_half (x : npfloat) : npfloat :=
  match x with
  | NInf => PInf
  | _ => fsqrt x
  end.

Definition fcosh (x : npfloat) : npfloat :=
  match x with
  | Fin r => Fin (cosh r)
  | PInf | NInf => PInf
  | NaN => NaN
  end.

Definition ftanh (x : npfloat) : npfloat :=
  match x with
  | Fin r => Fin (tanh r)
  | PInf => Fin 1
  | NInf => Fin (-1)
  | NaN => NaN
  end.

(** A Python [int] used in float arithmetic. *)
Definition of_nat (n : nat) : npfloat := Fin (INR n).

(** [np.sum] of a sequence of values: 0.0 for the empty one. *)
Definition fsum (l : list npfloat) : npfloat := fold_left fadd l (Fin 0).

(** The sum of [f t] for [t] below [n]. *)
Definition fsum_upto (n : nat) (f : nat -> npfloat) : npfloat :=
  fsum (map f (seq 0 n)).

Definition is_fin (x : npfloat) : Prop := exists r, x = Fin r.

End NpFloat.
Export NpFloat.

(** ** Exceptions and results *)

Inductive exn : Type :=
  | RuntimeError (msg : string)
  | IndexError (msg : string)
  | ValueError (msg : string)
  | AttributeError (owner attr : string)
  | TypeError (msg : string)
  | ZeroDivisionError.

Inductive result (A : Type) : Type :=
  | Ok (a : A)
  | Raise (e : exn).
Arguments Ok {A} a.
Arguments Raise {A} e.

Definition rbind {A B : Type} (m : result A) (k : A -> result B) : result B :=
  match m with
  | Ok a => k a
  | Raise e => Raise e
  end.

Definition rmap {A B : Type} (f : A -> B) (m : result A) : result B :=
  match m with
  | Ok a => Ok (f a)
  | Raise e => Raise e
  end.

#[global] Instance result_fmap : FMap result := @rmap.
#[global] Instance result_ret : MRet result := @Ok.
#[global] Instance result_bind : MBind result := fun A B k m => rbind m k.

(** ** The numpy operations the module uses *)

Module Np.

(** An n-dimensional array: its shape and its elements in row-major
    order. *)
Record array (A : Type) : Type := mk_array {
  shape : list nat;
  data : list A
}.
Arguments mk_array {A} shape data.
Arguments shape {A} a.
Arguments data {A} a.

Definition size (s : list nat) : nat := foldr Nat.mul 1 s.

(** A well-formed array holds as many elements as its shape says. *)
Definition wf {A : Type} (a : array A) : Prop :=
  length (data a) = size (shape a).

(** All the multi-indices of a shape, in row-major order. *)
Fixpoint indices (s : list nat) : list (list nat) :=
  match s with
  | [] => [[]]
  | n :: s' => flat_map (fun i => map (cons i) (indices s')) (seq 0 n)
  end.

(** The flat position of a multi-index. *)
Fixpoint ravel (s idx : list nat) : nat :=
  match s, idx with
  | _ :: s', i :: idx' => i * size s' + ravel s' idx'
  | _, _ => 0
  end.

(** A multi-index within the bounds of a shape. *)
Definition valid (s idx : list nat) : Prop := Forall2 lt idx s.

Definition get {A : Type} (d : A) (a : array A) (idx : list nat) : A :=
  nth (ravel (shape a) idx) (data a) d.

Definition build {A : Type} (s : list nat) (f : list nat -> A) : array A :=
  mk_array s (map f (indices s)).

(** A numpy scalar ([np.float64]) or Python float, seen as a
    0-dimensional array. *)
Definition scalar {A : Type} (v : A) : array A := mk_array [] [v].

(** [a.shape[0]] *)
Definition shape0 {A : Type} (a : array A) : result nat :=
  match shape a with
  | n :: _ => Ok n
  | [] => Raise (IndexError "tuple index out of range")
  end.

(** *** Broadcasting *)

Definition bdim (a b : nat) : option nat :=
  if a =? b then Some a
  else if a =? 1 then Some b
  else if b =? 1 then Some a
  else None.

(** Shapes are aligned from the trailing axis: on reversed shapes. *)
Fixpoint bshape_rev (r1 r2 : list nat) : option (list nat) :=
  match r1, r2 with
  | [], r => Some r
  | r, [] => Some r
  | a :: r1', b :: r2' =>
      match bdim a b, bshape_rev r1' r2' with
      | Some d, Some r => Some (d :: r)
      | _, _ => None
      end
  end.

Definition broadcast_shapes (s1 s2 : list nat) : option (list nat) :=
  match bshape_rev (rev s1) (rev s2) with
  | Some r => Some (rev r)
  | None => None
  end.

(** The index into an operand of shape [s] that the index [idx] of the
    broadcast result reads: leading axes the operand lacks are dropped,
    an axis of size 1 is read at 0. *)
Definition bidx (s idx : list nat) : list nat :=
  zip_with (fun n i => if n =? 1 then 0 else i) s
           (drop (length idx - length s) idx).

Definition broadcast2 {A B C : Type} (dA : A) (dB : B) (f : A -> B -> C)
    (a : array A) (b : array B) : result (array C) :=
  match broadcast_shapes (shape a) (shape b) with
  | Some s =>
      Ok (build s (fun idx =>
            f (get dA a (bidx (shape a) idx)) (get dB b (bidx (shape b) idx))))
  | None => Raise (ValueError "operands could not be broadcast together")
  end.

(** An operation between an array and a Python scalar, and the unary
    ufuncs, apply to every element. *)
Definition map_ {A B : Type} (f : A -> B) (a : array A) : array B :=
  mk_array (shape a) (map f (data a)).

(** *** Elementwise arithmetic *)

Definition add : array npfloat -> array npfloat -> result (array npfloat) :=
  broadcast2 NaN NaN fadd.
Definition subtract : array npfloat -> array npfloat -> result (array npfloat) :=
  broadcast2 NaN NaN fsub.
Definition multiply : array npfloat -> array npfloat -> result (array npfloat) :=
  broadcast2 NaN NaN fmul.
Definition true_divide : array npfloat -> array npfloat -> result (array npfloat) :=
  broadcast2 NaN NaN fdiv.

Definition negative : array npfloat -> array npfloat := map_ fneg.
Definition absolute : array npfloat -> array npfloat := map_ fabs.
Definition square : array npfloat -> array npfloat := map_ fsquare.
Definition log : array npfloat -> array npfloat := map_ flog.
Definition cosh : array npfloat -> array npfloat := map_ fcosh.
Definition tanh : array npfloat -> array npfloat := map_ ftanh.
Definition sign : array npfloat -> array npfloat := map_ fsign.

(** [np.power(a, 2)] and [a ** 2] *)
Definition power2 : array npfloat -> array npfloat := map_ fsquare.

(** [a / n], [a * x], [x - a], [a - x], [a <= x], [a != x] for a
    Python number on one side *)
Definition divide_int (a : array npfloat) (n : nat) : array npfloat :=
  map_ (fun x => fdiv x (of_nat n)) a.
Definition scale (x : npfloat) (a : array npfloat) : array npfloat :=
  map_ (fun y => fmul x y) a.
Definition rsub_scalar (x : npfloat) (a : array npfloat) : array npfloat :=
  map_ (fun y => fsub x y) a.
Definition sub_scalar (a : array npfloat) (x : npfloat) : array npfloat :=
  map_ (fun y => fsub y x) a.
Definition add_scalar (a : array npfloat) (x : npfloat) : array npfloat :=
  map_ (fun y => fadd y x) a.
Definition less_equal_scalar (a : array npfloat) (x : npfloat) : array bool :=
  map_ (fun y => fle y x) a.
Definition not_equal_scalar (a : array npfloat) (x : npfloat) : array bool :=
  map_ (fun y => fne y x) a.

Definition zeros_like (a : array npfloat) : array npfloat :=
  map_ (fun _ => Fin 0) a.

(** [np.sum(a)]: the sum of all the elements, a numpy scalar. *)
Definition sum (a : array npfloat) : npfloat := fsum (data a).

(** [a.T]: all the axes reversed. *)
Definition T (a : array npfloat) : array npfloat :=
  build (rev (shape a)) (fun idx => get NaN a (rev idx)).

(** [np.where(c, x, y)] *)
Definition where_ (c : array bool) (x y : array npfloat) : result (array npfloat) :=
  match broadcast_shapes (shape c) (shape x) with
  | Some s1 =>
      match broadcast_shapes s1 (shape y) with
      | Some s =>
          Ok (build s (fun idx =>
                if get false c (bidx (shape c) idx)
                then get NaN x (bidx (shape x) idx)
                else get NaN y (bidx (shape y) idx)))
      | None => Raise (ValueError "operands could not be broadcast together")
      end
  | None => Raise (ValueError "operands could not be broadcast together")
  end.

(** [np.divide(x1, x2, out=o, where=m)]: the quotient is computed only
    where the mask holds; elsewhere the element of [o] stays.  The
    operands must broadcast to the shape of [o]. *)
Definition divide_where (x1 x2 o : array npfloat) (m : array bool)
    : result (array npfloat) :=
  match broadcast_shapes (shape x1) (shape x2) with
  | Some s1 =>
      match broadcast_shapes s1 (shape m) with
      | Some s =>
          if decide (broadcast_shapes s (shape o) = Some (shape o)) then
            Ok (build (shape o) (fun idx =>
                  if get false m (bidx (shape m) idx)
                  then fdiv (get NaN x1 (bidx (shape x1) idx))
                            (get NaN x2 (bidx (shape x2) idx))
                  else get NaN o idx))
          else Raise (ValueError "non-broadcastable output operand")
      | None => Raise (ValueError "operands could not be broadcast together")
      end
  | None => Raise (ValueError "operands could not be broadcast together")
  end.

(** [np.dot(a, b)]: a product by a 0-dimensional operand is the
    elementwise product; with [b] 1-dimensional the last axis of [a] is
    summed against [b]; otherwise the last axis of [a] is summed against
    the second-to-last axis of [b]. *)
Definition dot (a b : array npfloat) : result (array npfloat) :=
  match shape a, shape b with
  | [], _ => multiply a b
  | _, [] => multiply a b
  | sa, [k] =>
      if decide (last sa = Some k) then
        Ok (build (removelast sa) (fun idx =>
              fsum_upto k (fun t =>
                fmul (get NaN a (idx ++ [t])) (get NaN b [t]))))
      else Raise (ValueError "shapes not aligned")
  | sa, sb =>
      let k := default 0 (last sa) in
      let na := length sa - 1 in
      if decide (last (removelast sb) = Some k) then
        Ok (build (removelast sa ++ removelast (removelast sb)
                     ++ [default 0 (last sb)])
              (fun idx =>
                 let i := take na idx in
                 let r := drop na idx in
                 fsum_upto k (fun t =>
                   fmul (get NaN a (i ++ [t]))
                        (get NaN b (removelast r ++ [t; default 0 (last r)])))))
      else Raise (ValueError "shapes not aligned")
  end.

End Np.

(** ** Python values *)

(** Modelled from the spec: the class [Tensor] of [MLlib] is not part of
    this module.  The specification gives what the module needs of it:
    a Tensor exposes [data] (the array it wraps), [requires_grad] and
    [is_leaf], and is constructed from these three.  The reference to
    the producing node is set by the graph executor, not here. *)
Record Tensor : Type := mk_Tensor {
  data : Np.array npfloat;
  requires_grad : bool;
  is_leaf : bool
}.

(** Modelled from the spec: [Tensor(x)], with the two flags left to the
    constructor.  The specification does not give the defaults; a
    Tensor made from an array alone is taken to track no gradient and
    to be a leaf.  No property below depends on this choice. *)
Definition Tensor_of (x : Np.array npfloat) : Tensor := mk_Tensor x false true.

(** The objects a caller can hand to the autograd node. *)
Inductive pyobj : Type :=
  | PyTensor (t : Tensor)
  | PyArray (a : Np.array npfloat)
  | PyFloat (x : npfloat)
  | PyNone
  | PyInstance (cls : string).

(** [type(o).__name__]; an instance of any other class carries the name
    of its class. *)
Definition type_name (o : pyobj) : string :=
  match o with
  | PyTensor _ => "Tensor"
  | PyArray _ => "ndarray"
  | PyFloat _ => "float"
  | PyNone => "NoneType"
  | PyInstance cls => cls
  end.

(** [o.requires_grad] and [o.data] as the node reads them. *)
Definition attr_requires_grad (o : pyobj) : result bool :=
  match o with
  | PyTensor t => Ok (requires_grad t)
  | _ => Raise (AttributeError (type_name o) "requires_grad")
  end.

Definition attr_data (o : pyobj) : result (Np.array npfloat) :=
  match o with
  | PyTensor t => Ok (data t)
  | _ => Raise (AttributeError (type_name o) "data")
  end.

(** ** The context record

    [ctx] is an attribute bag shared by one forward call and the
    backward call that follows it; the node's methods run in a state
    monad over it. *)

Abbreviation context := (gmap string (Np.array npfloat)).

Definition CtxM (A : Type) : Type := context -> result A * context.

Definition cret {A : Type} (a : A) : CtxM A := fun c => (Ok a, c).

Definition cbind {A B : Type} (m : CtxM A) (k : A -> CtxM B) : CtxM B :=
  fun c =>
    match m c with
    | (Ok a, c') => k a c'
    | (Raise e, c') => (Raise e, c')
    end.

Definition craise {A : Type} (e : exn) : CtxM A := fun c => (Raise e, c).

(** A computation that does not touch the context. *)
Definition lift {A : Type} (r : result A) : CtxM A := fun c => (r, c).

(** [ctx.name = v] *)
Definition setattr (name : string) (v : Np.array npfloat) : CtxM unit :=
  fun c => (Ok tt, <[name := v]> c).

(** [ctx.name] *)
Definition getattr (name : string) : CtxM (Np.array npfloat) :=
  fun c =>
    match c !! name with
    | Some v => (Ok v, c)
    | None => (Raise (AttributeError "ctx" name), c)
    end.

#[global] Instance CtxM_ret : MRet CtxM := @cret.
#[global] Instance CtxM_bind : MBind CtxM := fun A B k m => cbind m k.

(** ** External collaborators *)

(** Modelled from the spec: the class [Sigmoid] of [MLlib.activations]
    is not part of this module.  The specification gives its interface:
    it provides [activation(z) -> array], applied elementwise.  The
    elementwise function itself is left open. *)
Record SigmoidClass : Type := mk_Sigmoid {
  activation : npfloat -> npfloat
}.

(** Attribute lookup on an instance made by [Sigmoid()]. *)
Definition Sigmoid_getattr (S : SigmoidClass) (name : string)
    : result (Np.array npfloat -> Np.array npfloat) :=
  if String.eqb name "activation" then Ok (Np.map_ (activation S))
  else Raise (AttributeError "Sigmoid" name).

(** Modelled from the spec: [unbroadcast] of [MLlib.utils.misc_utils]
    is not part of this module.  Given a gradient of shape S and a
    shape T that broadcasts to S, it returns an array of shape exactly
    T, each element the sum of the elements of the gradient that the
    broadcast read from it; shapes that are not compatible raise a
    dimension error. *)
Definition unbroadcast (grad : Np.array npfloat) (T : list nat)
    : result (Np.array npfloat) :=
  if decide (Np.broadcast_shapes T (Np.shape grad) = Some (Np.shape grad)) then
    Ok (Np.build T (fun idx =>
          fsum (map (Np.get NaN grad)
                    (filter (fun j => Np.bidx T j = idx)
                            (Np.indices (Np.shape grad))))))
  else Raise (ValueError "dimension mismatch in unbroadcast").

(** [1/M] between Python ints. *)
Definition py_inv (M : nat) : result npfloat :=
  match M with
  | O => Raise ZeroDivisionError
  | _ => Ok (Fin (1 / INR M))
  end.

(** ** The module *)

Module MeanSquaredError.

Definition type_error_message (prediction target : pyobj) : string :=
  "Expected Tensors, got " +:+ type_name prediction +:+ " and "
    +:+ type_name target
    +:+ ". Please use .loss() method for non-Tensor data".

Definition forward (prediction target : pyobj) : CtxM Tensor :=
  if negb (String.eqb (type_name prediction) "Tensor"
           && String.eqb (type_name target) "Tensor")
  then craise (RuntimeError (type_error_message prediction target))
  else
    requires_grad ← lift (attr_requires_grad prediction);
    tdata ← lift (attr_data target);
    batch_size ← lift (Np.shape0 tdata);
    pdata ← lift (attr_data prediction);
    tdata' ← lift (attr_data target);
    out ← lift (Np.subtract pdata tdata');
    _ ← (if requires_grad : bool then setattr "derivative_core" out
         else cret tt);
    let out := fdiv (Np.sum (Np.power2 out)) (of_nat (2 * batch_size)) in
    cret (mk_Tensor (Np.scalar out) requires_grad (negb requires_grad)).

Definition backward (grad_output : Tensor) : CtxM Tensor :=
  derivative ← getattr "derivative_core";
  n ← lift (Np.shape0 derivative);
  grad_prediction ←
    lift (Np.multiply (Np.divide_int derivative n) (data grad_output));
  g ← lift (unbroadcast grad_prediction (Np.shape derivative));
  cret (Tensor_of g).

Definition loss (X Y W : Np.array npfloat) : result npfloat :=
  M ← Np.shape0 X;
  P ← Np.dot X W;
  R ← Np.subtract (Np.T P) Y;
  mret (fdiv (Np.sum (Np.power2 R)) (of_nat (2 * M))).

Definition derivative (X Y W : Np.array npfloat) : result (Np.array npfloat) :=
  M ← Np.shape0 X;
  P ← Np.dot X W;
  R ← Np.subtract (Np.T P) Y;
  G ← Np.dot R X;
  mret (Np.divide_int (Np.T G) M).

End MeanSquaredError.

Module LogarithmicError.

Definition loss (Sigmoid : SigmoidClass) (X Y W : Np.array npfloat)
    : result npfloat :=
  M ← Np.shape0 X;
  activation ← Sigmoid_getattr Sigmoid "activation";
  P ← Np.dot X W;
  let H := activation (Np.T P) in
  invM ← py_inv M;
  a ← Np.multiply (Np.negative Y) (Np.log H);
  b ← Np.multiply (Np.rsub_scalar (Fin 1) Y) (Np.log (Np.rsub_scalar (Fin 1) H));
  d ← Np.subtract a b;
  mret (fmul invM (Np.sum d)).

Definition derivative (Sigmoid : SigmoidClass) (X Y W : Np.array npfloat)
    : result (Np.array npfloat) :=
  M ← Np.shape0 X;
  activation ← Sigmoid_getattr Sigmoid "activation";
  P ← Np.dot X W;
  let H := activation (Np.T P) in
  invM ← py_inv M;
  D ← Np.subtract H Y;
  G ← Np.dot (Np.T X) (Np.T D);
  mret (Np.scale invM G).

End LogarithmicError.

Module AbsoluteError.

Definition loss (X Y W : Np.array npfloat) : result npfloat :=
  M ← Np.shape0 X;
  P ← Np.dot X W;
  R ← Np.subtract (Np.T P) Y;
  mret (fdiv (Np.sum (Np.absolute R)) (of_nat M)).

Definition derivative (X Y W : Np.array npfloat) : result (Np.array npfloat) :=
  M ← Np.shape0 X;
  P ← Np.dot X W;
  AbsError ← Np.subtract (Np.T P) Y;
  S ← Np.divide_where AbsError (Np.absolute AbsError)
        (Np.zeros_like AbsError)
        (Np.not_equal_scalar (Np.absolute AbsError) (Fin 0));
  G ← Np.dot S X;
  mret (Np.divide_int (Np.T G) M).

End AbsoluteError.

Module CosineSimilarity.

Definition loss (Sigmoid : SigmoidClass) (X Y W : Np.array npfloat)
    : result npfloat :=
  activation ← Sigmoid_getattr Sigmoid "activation";
  P ← Np.dot X W;
  let H := activation (Np.T P) in
  HY ← Np.dot H Y;
  let DP := Np.sum HY in
  let S := fdiv DP (fmul (fpow_half (Np.sum (Np.square H)))
                         (fpow_half (Np.sum (Np.square Y)))) in
  let dissimilarity := fsub (Fin 1) S in
  mret (fmul dissimilarity (fpow_half (Np.sum (Np.square Y)))).

End CosineSimilarity.

Module Log_cosh.

Definition logcosh_loss (X Y : Np.array npfloat) : result npfloat :=
  D ← Np.subtract Y X;
  let p := Np.cosh D in
  let loss := Np.log p in
  let error := Np.sum loss in
  mret error.

Definition derivative_logcosh (X Y : Np.array npfloat) : result npfloat :=
  D ← Np.subtract Y X;
  let t := Np.tanh D in
  let derivative := Np.sum t in
  mret derivative.

End Log_cosh.

Module Huber.

(** The default of the keyword argument [delta]. *)
Definition default_delta : npfloat := Fin 1.

Definition loss (X Y : Np.array npfloat) (delta : npfloat)
    : result (Np.array npfloat) :=
  D1 ← Np.subtract X Y;
  let cond := Np.less_equal_scalar (Np.absolute D1) delta in
  D2 ← Np.subtract X Y;
  let a := Np.scale (Fin (1/2)) (Np.power2 D2) in
  D3 ← Np.subtract X Y;
  let b := Np.scale delta
             (Np.sub_scalar (Np.absolute D3) (fmul (Fin (1/2)) delta)) in
  Np.where_ cond a b.

Definition derivative (X Y : Np.array npfloat) (delta : npfloat)
    : result (Np.array npfloat) :=
  D1 ← Np.subtract X Y;
  let cond := Np.less_equal_scalar (Np.absolute D1) delta in
  D2 ← Np.subtract X Y;
  D3 ← Np.subtract X Y;
  let b := Np.scale delta (Np.sign D3) in
  Np.where_ cond D2 b.

End Huber.

Module MeanSquaredLogLoss.

Definition loss (Sigmoid : SigmoidClass) (X Y W : Np.array npfloat)
    : result npfloat :=
  M ← Np.shape0 X;
  activations ← Sigmoid_getattr Sigmoid "activations";
  P ← Np.dot X W;
  let H := activations (Np.T P) in
  invM ← py_inv M;
  D ← Np.subtract (Np.log (Np.add_scalar Y (Fin 1)))
                  (Np.log (Np.add_scalar H (Fin 1)));
  mret (fsqrt (fmul invM (Np.sum D))).

End MeanSquaredLogLoss.

(** ** Classes and attribute lookup

    The methods above are static methods of classes; [MSELoss] is a
    subclass of [MeanSquaredError] with an empty body.  A class is its
    name, its bases and its own namespace, and an attribute is looked
    up in the class first and then in its bases, left to right (for the
    single-inheritance chains of this module, the method resolution
    order of Python). *)

Inductive method : Type :=
  | MForward (f : pyobj -> pyobj -> CtxM Tensor)
  | MBackward (f : Tensor -> CtxM Tensor)
  | MLoss (f : Np.array npfloat -> Np.array npfloat -> Np.array npfloat
               -> result npfloat)
  | MDerivative (f : Np.array npfloat -> Np.array npfloat -> Np.array npfloat
                     -> result (Np.array npfloat)).

#[local] Set Warnings "-register-all".
Inductive pyclass : Type :=
  | Class (name : string) (bases : list pyclass)
          (namespace : list (string * method)).

Fixpoint namespace_lookup (name : string) (ns : list (string * method))
    : option method :=
  match ns with
  | [] => None
  | (k, m) :: ns' => if String.eqb k name then Some m else namespace_lookup name ns'
  end.

Fixpoint class_getattr (c : pyclass) (name : string) : option method :=
  match c with
  | Class _ bases ns =>
      match namespace_lookup name ns with
      | Some m => Some m
      | None =>
          (fix in_bases (bs : list pyclass) : option method :=
             match bs with
             | [] => None
             | b :: bs' =>
                 match class_getattr b name with
                 | Some m => Some m
                 | None => in_bases bs'
                 end
             end) bases
      end
  end.

(** [autograd.Function], the base of the node, lives outside this
    module: its namespace [fns] is a parameter. *)
Definition Function_class (fns : list (string * method)) : pyclass :=
  Class "Function" [] fns.

Definition MeanSquaredError_class (fns : list (string * method)) : pyclass :=
  Class "MeanSquaredError" [Function_class fns]
    [("forward", MForward MeanSquaredError.forward);
     ("backward", MBackward MeanSquaredError.backward);
     ("loss", MLoss MeanSquaredError.loss);
     ("derivative", MDerivative MeanSquaredError.derivative)].

(** [class MSELoss(MeanSquaredError): pass] *)
Definition MSELoss (fns : list (string * method)) : pyclass :=
  Class "MSELoss" [MeanSquaredError_class fns] [].

(** A call [cls.name(args)]: the arguments a caller passes and what
    comes back.  A method called with arguments that do not fit its
    signature raises TypeError. *)
Inductive call_args : Type :=
  | ArgsForward (ctx : context) (prediction target : pyobj)
  | ArgsBackward (ctx : context) (grad_output : Tensor)
  | ArgsXYW (X Y W : Np.array npfloat).

Inductive call_result : Type :=
  | ResNode (r : result Tensor * context)
  | ResFloat (r : result npfloat)
  | ResArray (r : result (Np.array npfloat))
  | ResTypeError.

Definition call_method (m : method) (a : call_args) : call_result :=
  match m, a with
  | MForward f, ArgsForward c p t => ResNode (f p t c)
  | MBackward f, ArgsBackward c g => ResNode (f g c)
  | MLoss f, ArgsXYW X Y W => ResFloat (f X Y W)
  | MDerivative f, ArgsXYW X Y W => ResArray (f X Y W)
  | _, _ => ResTypeError
  end.

(** [None] when the class has no such attribute. *)
Definition call_attr (c : pyclass) (name : string) (a : call_args)
    : option call_result :=
  match class_getattr c name with
  | Some m => Some (call_method m a)
  | None => None
  end.

(** ** The formulas of the specification *)

(** The two branches of the Huber loss at one residual [d = x - y]:
    [0.5·d²] and [delta·(|d| - 0.5·delta)]. *)
Definition Huber_smooth (d : npfloat) : npfloat := fmul (Fin (1/2)) (fsquare d).
Definition Huber_linear (delta d : npfloat) : npfloat :=
  fmul delta (fsub (fabs d) (fmul (Fin (1/2)) delta)).

(** A raw array, as opposed to a Tensor. *)
Definition is_raw_array (o : pyobj) : Prop := exists a, o = PyArray a.

(** The layouts of the classical functions: [X] is a design matrix of
    shape (M, n), one row per sample; the weights [W] are a column
    (n, 1) or a flat vector (n,); the targets [Y] are a row (1, M) or a
    flat vector (M,). *)
Definition weights_shape (wcol : bool) (n : nat) : list nat :=
  if wcol then [n; 1] else [n].
Definition targets_shape (yrow : bool) (M : nat) : list nat :=
  if yrow then [1; M] else [M].

Definition entry (X : Np.array npfloat) (i t : nat) : npfloat :=
  Np.get NaN X [i; t].
Definition weight_at (wcol : bool) (W : Np.array npfloat) (t : nat) : npfloat :=
  Np.get NaN W (if wcol then [t; 0] else [t]).
Definition target_at (yrow : bool) (Y : Np.array npfloat) (i : nat) : npfloat :=
  Np.get NaN Y (if yrow then [0; i] else [i]).

(** The residual of sample [i]: (X·W - Y)_i. *)
Definition spec_residual (wcol yrow : bool) (n : nat)
    (X Y W : Np.array npfloat) (i : nat) : npfloat :=
  fsub (fsum_upto n (fun t => fmul (entry X i t) (weight_at wcol W t)))
       (target_at yrow Y i).

(** [sum((X·W - Y)^2) / (2M)] *)
Definition spec_mse_loss (wcol yrow : bool) (M n : nat)
    (X Y W : Np.array npfloat) : npfloat :=
  fdiv (fsum_upto M (fun i => fsquare (spec_residual wcol yrow n X Y W i)))
       (of_nat (2 * M)).

(** Component [j] of [dot((X·W - Y), X) / M] *)
Definition spec_mse_derivative (wcol yrow : bool) (M n : nat)
    (X Y W : Np.array npfloat) (j : nat) : npfloat :=
  fdiv (fsum_upto M (fun i =>
          fmul (spec_residual wcol yrow n X Y W i) (entry X i j)))
       (of_nat M).

(** The shape of the residual array and of the gradient the functions
    build in these layouts, and where sample [i] and component [j] sit
    in them. *)
Definition residual_shape (wcol yrow : bool) (M : nat) : list nat :=
  if wcol || yrow then [1; M] else [M].
Definition gradient_shape (wcol yrow : bool) (n : nat) : list nat :=
  if wcol || yrow then [n; 1] else [n].
Definition gradient_pos (wcol yrow : bool) (j : nat) : list nat :=
  if wcol || yrow then [j; 0] else [j].

(** One element of [np.divide(r, |r|, out=0, where=(|r| != 0))]. *)
Definition guarded_sign (r : npfloat) : npfloat :=
  if fne (fabs r) (Fin 0) then fdiv r (fabs r) else Fin 0.

(** ** Formulas of the other families, in the same layouts *)

(** The shape of an array that holds one value per sample: a row
    (1, M) or flat (M,). *)
Definition sample_shape (row : bool) (M : nat) : list nat :=
  if row then [1; M] else [M].

(** (X·W)_i and H_i = sigmoid((X·W)_i) *)
Definition spec_logit (wcol : bool) (n : nat) (X W : Np.array npfloat)
    (i : nat) : npfloat :=
  fsum_upto n (fun t => fmul (entry X i t) (weight_at wcol W t)).

Definition spec_hypothesis (Sigmoid : SigmoidClass) (wcol : bool) (n : nat)
    (X W : Np.array npfloat) (i : nat) : npfloat :=
  activation Sigmoid (spec_logit wcol n X W i).

(** [(1/M) · sum(-Y·log H - (1-Y)·log(1-H))] *)
Definition spec_log_loss (Sigmoid : SigmoidClass) (wcol yrow : bool)
    (M n : nat) (X Y W : Np.array npfloat) : npfloat :=
  fmul (Fin (1 / INR M))
    (fsum_upto M (fun i =>
       let h := spec_hypothesis Sigmoid wcol n X W i in
       let y := target_at yrow Y i in
       fsub (fmul (fneg y) (flog h))
            (fmul (fsub (Fin 1) y) (flog (fsub (Fin 1) h))))).

(** Component [j] of [(1/M) · X.T · (H - Y)] *)
Definition spec_log_derivative (Sigmoid : SigmoidClass) (wcol yrow : bool)
    (M n : nat) (X Y W : Np.array npfloat) (j : nat) : npfloat :=
  fmul (Fin (1 / INR M))
    (fsum_upto M (fun i =>
       fmul (entry X i j)
            (fsub (spec_hypothesis Sigmoid wcol n X W i) (target_at yrow Y i)))).

(** [(1 - H·Y / (|H| |Y|)) · |Y|], for flat targets *)
Definition spec_cosine_loss (Sigmoid : SigmoidClass) (wcol : bool)
    (M n : nat) (X Y W : Np.array npfloat) : npfloat :=
  let h := spec_hypothesis Sigmoid wcol n X W in
  let DP := fsum_upto M (fun i => fmul (h i) (target_at false Y i)) in
  let normH := fpow_half (fsum_upto M (fun i => fsquare (h i))) in
  let normY := fpow_half (Np.sum (Np.square Y)) in
  fmul (fsub (Fin 1) (fdiv DP (fmul normH normY))) normY.

(** [0 <= x] and [x <= 0] as numpy compares: true of a number of that
    sign and of the infinity of that sign, false of NaN. *)
Definition fnonneg (x : npfloat) : Prop := fle (Fin 0) x = true.
Definition fnonpos (x : npfloat) : Prop := fle x (Fin 0) = true.

(** Closes goals that a concrete index lies within a concrete shape. *)
Ltac valid_tac := unfold Np.valid; repeat constructor; lia.

(** * Properties *)

(** ** The arithmetic of [npfloat] *)

Section NpFloatFacts.
Local Open Scope R_scope.

Lemma Rcmp0_zero : Rcmp0 0 = Eq.
Proof.
  unfold Rcmp0. destruct (total_order_T 0 0) as [[H|H]|H]; try reflexivity; lra.
Qed.

Lemma Rcmp0_Eq (r : R) : Rcmp0 r = Eq <-> r = 0.
Proof.
  unfold Rcmp0. destruct (total_order_T r 0) as [[H|H]|H];
    split; intros E; try discriminate; try reflexivity; lra.
Qed.

Lemma Rcmp0_Gt (r : R) : Rcmp0 r = Gt <-> 0 < r.
Proof.
  unfold Rcmp0. destruct (total_order_T r 0) as [[H|H]|H];
    split; intros E; try discriminate; try reflexivity; lra.
Qed.

Lemma Rcmp0_Lt (r : R) : Rcmp0 r = Lt <-> r < 0.
Proof.
  unfold Rcmp0. destruct (total_order_T r 0) as [[H|H]|H];
    split; intros E; try discriminate; try reflexivity; lra.
Qed.

Lemma fdiv_fin (a b : R) : b <> 0 -> fdiv (Fin a) (Fin b) = Fin (a / b).
Proof.
  intros Hb. simpl. destruct (Rcmp0 b) eqn:E; try reflexivity.
  apply Rcmp0_Eq in E. contradiction.
Qed.

Lemma fdiv_zero_zero : fdiv (Fin 0) (Fin 0) = NaN.
Proof. simpl. now rewrite Rcmp0_zero. Qed.

Lemma fne_zero (x : npfloat) : fne x (Fin 0) = false <-> x = Fin 0.
Proof.
  destruct x as [r| | |]; simpl; split; intros H; try discriminate.
  - destruct (Req_dec_T r 0); [now subst | discriminate].
  - injection H as ->. destruct (Req_dec_T 0 0); [reflexivity | contradiction].
Qed.

Lemma fabs_zero (x : npfloat) : fabs x = Fin 0 <-> x = Fin 0.
Proof.
  destruct x as [r| | |]; simpl; split; intros H; try discriminate.
  - injection H as H. f_equal.
    destruct (Req_dec_T r 0) as [|Hn]; [assumption|].
    apply Rabs_no_R0 in Hn. contradiction.
  - injection H as ->. now rewrite Rabs_R0.
Qed.

Lemma fmul_fin_inv (x y : npfloat) (r : R) :
  fmul x y = Fin r -> exists a b, x = Fin a /\ y = Fin b /\ r = a * b.
Proof.
  destruct x as [a| | |], y as [b| | |]; simpl; unfold inf_scaled;
    try discriminate;
    try (destruct (Rcmp0 _); discriminate).
  intros [= <-]. eauto.
Qed.

Lemma fadd_fin_inv (x y : npfloat) (r : R) :
  fadd x y = Fin r -> exists a b, x = Fin a /\ y = Fin b /\ r = a + b.
Proof.
  destruct x as [a| | |], y as [b| | |]; simpl; try discriminate.
  intros [= <-]. eauto.
Qed.

Lemma fsub_fin_inv (x y : npfloat) (r : R) :
  fsub x y = Fin r -> exists a b, x = Fin a /\ y = Fin b /\ r = a - b.
Proof.
  unfold fsub. intros H. apply fadd_fin_inv in H as (a & b & -> & Hy & ->).
  destruct y as [c| | |]; simpl in Hy; try discriminate.
  injection Hy as <-. exists a, c. repeat split; try lra.
Qed.

Lemma fmul_zero_fin (b : R) : fmul (Fin 0) (Fin b) = Fin 0.
Proof. simpl. f_equal. lra. Qed.

(** A sum is finite only if every summand is. *)
Lemma fold_fadd_fin_inv (l : list npfloat) (acc : npfloat) (r : R) :
  fold_left fadd l acc = Fin r -> is_fin acc /\ Forall is_fin l.
Proof.
  revert acc r. induction l as [|x l IH]; simpl; intros acc r H.
  - split; [now exists r | constructor].
  - apply IH in H as [[s Hs] Hl].
    apply fadd_fin_inv in Hs as (a & b & -> & -> & _).
    split; [now exists a|]. constructor; [now exists b | assumption].
Qed.

Lemma fsum_upto_fin_inv (n : nat) (f : nat -> npfloat) (r : R) (t : nat) :
  fsum_upto n f = Fin r -> (t < n)%nat -> is_fin (f t).
Proof.
  unfold fsum_upto, fsum. intros H Ht.
  apply fold_fadd_fin_inv in H as [_ H].
  rewrite List.Forall_forall in H. apply H.
  apply in_map_iff. exists t. split; [reflexivity|].
  apply in_seq. lia.
Qed.

End NpFloatFacts.

(** ** Indexing *)

Section Indexing.

Lemma length_flat_map_const {A B : Type} (f : A -> list B) (l : list A) (k : nat) :
  (forall x, length (f x) = k) -> length (flat_map f l) = length l * k.
Proof.
  intros Hk. induction l as [|x l IH]; simpl; [reflexivity|].
  rewrite length_app, Hk, IH. reflexivity.
Qed.

Lemma nth_flat_map_const {A B : Type} (f : A -> list B) (l : list A) (k i j : nat)
    (d : B) (d0 : A) :
  (forall x, length (f x) = k) -> i < length l -> j < k ->
  nth (i * k + j) (flat_map f l) d = nth j (f (nth i l d0)) d.
Proof.
  intros Hk. revert i. induction l as [|x l IH]; simpl; intros i Hi Hj; [lia|].
  destruct i as [|i]; simpl.
  - rewrite app_nth1 by (rewrite Hk; lia). reflexivity.
  - rewrite app_nth2 by (rewrite Hk; lia). rewrite Hk.
    replace (k + i * k + j - k) with (i * k + j) by lia.
    apply IH; lia.
Qed.

Lemma length_indices (s : list nat) : length (Np.indices s) = Np.size s.
Proof.
  induction s as [|n s IH]; simpl; [reflexivity|].
  rewrite (length_flat_map_const _ _ (Np.size s)).
  - rewrite length_seq. reflexivity.
  - intros x. rewrite length_map. exact IH.
Qed.

Lemma ravel_lt (s idx : list nat) :
  Np.valid s idx -> Np.ravel s idx < Np.size s.
Proof.
  unfold Np.valid. intros H. induction H as [|i n idx s Hi H IH]; simpl; [lia|].
  change (foldr Nat.mul 1 s) with (Np.size s). nia.
Qed.

Lemma nth_ravel_indices (s idx d : list nat) :
  Np.valid s idx -> nth (Np.ravel s idx) (Np.indices s) d = idx.
Proof.
  unfold Np.valid. intros H. induction H as [|i n idx s Hi H IH]; simpl; [reflexivity|].
  rewrite (nth_flat_map_const _ _ (Np.size s) i (Np.ravel s idx) d 0).
  - rewrite seq_nth by exact Hi. simpl.
    rewrite (nth_indep _ d (i :: d)).
    + rewrite (map_nth (cons i)). now rewrite IH.
    + rewrite length_map, length_indices. now apply ravel_lt.
  - intros x. rewrite length_map. apply length_indices.
  - now rewrite length_seq.
  - now apply ravel_lt.
Qed.

Lemma get_build {A : Type} (d : A) (s : list nat) (f : list nat -> A) (idx : list nat) :
  Np.valid s idx -> Np.get d (Np.build s f) idx = f idx.
Proof.
  intros H. unfold Np.get, Np.build. simpl.
  rewrite (nth_indep _ d (f [])).
  - rewrite (map_nth f). now rewrite nth_ravel_indices.
  - rewrite length_map, length_indices. now apply ravel_lt.
Qed.

Lemma in_indices (s idx : list nat) :
  In idx (Np.indices s) <-> Np.valid s idx.
Proof.
  unfold Np.valid. revert idx. induction s as [|n s IH]; simpl; intros idx.
  - split.
    + intros [<-|[]]. constructor.
    + intros H. inversion H. now left.
  - rewrite in_flat_map. split.
    + intros (i & Hi & Hin). apply in_map_iff in Hin as (idx' & <- & Hin).
      apply in_seq in Hi. constructor; [lia | now apply IH].
    + intros H. inversion H as [|i n' idx' s' Hi H']; subst.
      exists i. split; [apply in_seq; lia|].
      apply in_map_iff. exists idx'. split; [reflexivity | now apply IH].
Qed.

Lemma build_ext {A : Type} (s : list nat) (f g : list nat -> A) :
  (forall idx, Np.valid s idx -> f idx = g idx) -> Np.build s f = Np.build s g.
Proof.
  intros H. unfold Np.build. f_equal. apply map_ext_in.
  intros idx Hin. apply H. now apply in_indices.
Qed.

Lemma wf_build {A : Type} (s : list nat) (f : list nat -> A) : Np.wf (Np.build s f).
Proof. unfold Np.wf. simpl. rewrite length_map. apply length_indices. Qed.

Lemma flat_map_singleton {A B : Type} (f : A -> B) (l : list A) :
  flat_map (fun x => [f x]) l = map f l.
Proof. induction l; simpl; congruence. Qed.

Lemma indices_1 (n : nat) : Np.indices [n] = map (fun i => [i]) (seq 0 n).
Proof. simpl. apply flat_map_singleton. Qed.

Lemma indices_n1 (n : nat) : Np.indices [n; 1] = map (fun i => [i; 0]) (seq 0 n).
Proof. simpl. apply flat_map_singleton. Qed.

Lemma indices_1n (n : nat) : Np.indices [1; n] = map (fun i => [0; i]) (seq 0 n).
Proof.
  simpl. rewrite app_nil_r, flat_map_singleton, map_map. reflexivity.
Qed.

Lemma valid_1 (n i : nat) : i < n -> Np.valid [n] [i].
Proof. intros H. repeat constructor. exact H. Qed.

Lemma valid_2 (a b i j : nat) : i < a -> j < b -> Np.valid [a; b] [i; j].
Proof. intros. repeat constructor; assumption. Qed.

End Indexing.

(** ** Broadcasting *)

Section Broadcasting.

Lemma bdim_refl (n : nat) : Np.bdim n n = Some n.
Proof. unfold Np.bdim. now rewrite Nat.eqb_refl. Qed.

Lemma bshape_rev_refl (r : list nat) : Np.bshape_rev r r = Some r.
Proof.
  induction r as [|n r IH]; simpl; [reflexivity|].
  now rewrite bdim_refl, IH.
Qed.

Lemma broadcast_shapes_refl (s : list nat) : Np.broadcast_shapes s s = Some s.
Proof.
  unfold Np.broadcast_shapes. rewrite bshape_rev_refl. now rewrite rev_involutive.
Qed.

Lemma bshape_rev_nil_r (r : list nat) : Np.bshape_rev r [] = Some r.
Proof. destruct r; reflexivity. Qed.

Lemma broadcast_shapes_nil_r (s : list nat) : Np.broadcast_shapes s [] = Some s.
Proof.
  unfold Np.broadcast_shapes. simpl. rewrite bshape_rev_nil_r.
  now rewrite rev_involutive.
Qed.

Lemma valid_length (s idx : list nat) : Np.valid s idx -> length idx = length s.
Proof. unfold Np.valid. induction 1; simpl; congruence. Qed.

Lemma zip_bidx_valid (s idx : list nat) :
  Np.valid s idx -> zip_with (fun n i => if n =? 1 then 0 else i) s idx = idx.
Proof.
  unfold Np.valid. induction 1 as [|i n idx s Hi H IH]; simpl; [reflexivity|].
  rewrite IH. destruct (Nat.eqb_spec n 1); [f_equal; lia | reflexivity].
Qed.

(** Reading an operand at an index of its own shape, whatever leading
    axes the result has in front of it. *)
Lemma bidx_suffix (s pre idx : list nat) :
  Np.valid s idx -> Np.bidx s (pre ++ idx) = idx.
Proof.
  intros H. unfold Np.bidx. rewrite length_app, (valid_length _ _ H).
  replace (length pre + length s - length s) with (length pre) by lia.
  rewrite drop_app_length. now apply zip_bidx_valid.
Qed.

Lemma bidx_valid (s idx : list nat) : Np.valid s idx -> Np.bidx s idx = idx.
Proof. intros H. now apply (bidx_suffix s [] idx). Qed.

Lemma bidx_nil (idx : list nat) : Np.bidx [] idx = [].
Proof. reflexivity. Qed.

Lemma broadcast2_same_shape {A B C : Type} (dA : A) (dB : B) (f : A -> B -> C)
    (a : Np.array A) (b : Np.array B) :
  Np.shape a = Np.shape b ->
  Np.broadcast2 dA dB f a b =
    Ok (Np.build (Np.shape a) (fun idx => f (Np.get dA a idx) (Np.get dB b idx))).
Proof.
  intros E. unfold Np.broadcast2. rewrite <- E, broadcast_shapes_refl.
  f_equal. apply build_ext. intros idx H. now rewrite bidx_valid.
Qed.

(** A successful broadcast has the broadcast shape. *)
Lemma broadcast2_shape {A B C : Type} (dA : A) (dB : B) (f : A -> B -> C)
    (a : Np.array A) (b : Np.array B) (r : Np.array C) :
  Np.broadcast2 dA dB f a b = Ok r ->
  Np.broadcast_shapes (Np.shape a) (Np.shape b) = Some (Np.shape r).
Proof.
  unfold Np.broadcast2.
  destruct (Np.broadcast_shapes (Np.shape a) (Np.shape b)); [|discriminate].
  now intros [= <-].
Qed.

End Broadcasting.

(** ** The autograd node *)

Section Node.

Lemma type_check_tensors (p t : Tensor) :
  negb (String.eqb (type_name (PyTensor p)) "Tensor"
        && String.eqb (type_name (PyTensor t)) "Tensor") = false.
Proof. reflexivity. Qed.

(** What [forward] does on two Tensors whose data subtract. *)
Lemma forward_tensors (p t : Tensor) (c : context) (n : nat) (s : list nat)
    (diff : Np.array npfloat) :
  Np.shape (data t) = n :: s ->
  Np.subtract (data p) (data t) = Ok diff ->
  MeanSquaredError.forward (PyTensor p) (PyTensor t) c =
    (Ok (mk_Tensor
           (Np.scalar (fdiv (fsum (map fsquare (Np.data diff))) (of_nat (2 * n))))
           (requires_grad p) (negb (requires_grad p))),
     if requires_grad p then <["derivative_core" := diff]> c else c).
Proof.
  intros Hs Hd. unfold MeanSquaredError.forward.
  rewrite type_check_tensors.
  unfold mbind, CtxM_bind, cbind, lift, mret, CtxM_ret, cret. simpl.
  unfold Np.shape0. rewrite Hs, Hd.
  destruct (requires_grad p); reflexivity.
Qed.

End Node.

(** ** Claims about [MeanSquaredError.forward] *)

(** C1 (as amended).  For two Tensors whose target has a leading axis,
    of size [batch_size], and whose data broadcast together to the
    difference [diff], [forward] returns a Tensor whose data is the
    scalar sum(diff^2) / (2 * batch_size), whose [requires_grad] is the
    prediction's and whose [is_leaf] is its negation. *)
Theorem forward_returns_scaled_sum (prediction target : Tensor) (c : context)
    (batch_size : nat) (s : list nat) (diff : Np.array npfloat) :
  Np.shape (data target) = batch_size :: s ->
  Np.subtract (data prediction) (data target) = Ok diff ->
  fst (MeanSquaredError.forward (PyTensor prediction) (PyTensor target) c) =
    Ok {| data := Np.scalar (fdiv (fsum (map fsquare (Np.data diff)))
                                  (of_nat (2 * batch_size)));
          requires_grad := requires_grad prediction;
          is_leaf := negb (requires_grad prediction) |}.
Proof.
  intros Hs Hd. now rewrite (forward_tensors _ _ _ _ _ _ Hs Hd).
Qed.

Lemma forward_returns_scaled_sum_witness :
  fst (MeanSquaredError.forward
         (PyTensor (mk_Tensor (Np.mk_array [2] [Fin 3; Fin 5]) true true))
         (PyTensor (Tensor_of (Np.mk_array [2] [Fin 1; Fin 1]))) ∅) =
    Ok {| data := Np.scalar
                    (fdiv (fsum (map fsquare
                                   [fsub (Fin 3) (Fin 1); fsub (Fin 5) (Fin 1)]))
                          (of_nat (2 * 2)));
          requires_grad := true;
          is_leaf := false |}.
Proof.
  apply (forward_returns_scaled_sum
           (mk_Tensor (Np.mk_array [2] [Fin 3; Fin 5]) true true)
           (Tensor_of (Np.mk_array [2] [Fin 1; Fin 1])) ∅ 2 []
           (Np.mk_array [2] [fsub (Fin 3) (Fin 1); fsub (Fin 5) (Fin 1)])).
  - reflexivity.
  - reflexivity.
Defined.

(** C1 does not hold for every pair of Tensors: a 0-dimensional target
    has no leading axis, and [forward] raises instead of returning a
    value. *)
Lemma forward_scalar_target_raises :
  let t := Tensor_of (Np.scalar (Fin 1)) in
  fst (MeanSquaredError.forward (PyTensor t) (PyTensor t) ∅) =
    Raise (IndexError "tuple index out of range")
  /\ forall out : Tensor,
       fst (MeanSquaredError.forward (PyTensor t) (PyTensor t) ∅) <> Ok out.
Proof.
  simpl. split; [reflexivity | intros out; discriminate].
Qed.


Lemma type_check_fails (p t : pyobj) :
  type_name p <> "Tensor" \/ type_name t <> "Tensor" ->
  negb (String.eqb (type_name p) "Tensor" && String.eqb (type_name t) "Tensor")
    = true.
Proof.
  intros [H|H]; apply negb_true_iff, andb_false_iff; [left | right];
    now apply String.eqb_neq.
Qed.

Lemma forward_type_error (p t : pyobj) (c : context) :
  type_name p <> "Tensor" \/ type_name t <> "Tensor" ->
  MeanSquaredError.forward p t c =
    (Raise (RuntimeError (MeanSquaredError.type_error_message p t)), c).
Proof.
  intros H. unfold MeanSquaredError.forward.
  now rewrite (type_check_fails _ _ H).
Qed.

(** C3.  When the prediction or the target is a raw array, [forward]
    raises at once: its outcome is the error that reports the type
    names of both arguments, in order (so the argument that is an
    [ndarray] and not a [Tensor] is named), and no value is returned
    for a coerced input. *)
Theorem forward_raw_array_raises (prediction target : pyobj) (c : context) :
  is_raw_array prediction \/ is_raw_array target ->
  fst (MeanSquaredError.forward prediction target c) =
    Raise (RuntimeError
             ("Expected Tensors, got " +:+ type_name prediction +:+ " and "
                +:+ type_name target
                +:+ ". Please use .loss() method for non-Tensor data"))
  /\ (type_name prediction = "ndarray" \/ type_name target = "ndarray")
  /\ forall out : Tensor,
       fst (MeanSquaredError.forward prediction target c) <> Ok out.
Proof.
  intros H.
  assert (Hn : type_name prediction = "ndarray" \/ type_name target = "ndarray").
  { destruct H as [[a ->]|[a ->]]; [left | right]; reflexivity. }
  assert (Ht : type_name prediction <> "Tensor" \/ type_name target <> "Tensor").
  { destruct Hn as [-> | ->]; [left | right]; discriminate. }
  rewrite (forward_type_error _ _ c Ht). simpl.
  split; [reflexivity|]. split; [exact Hn | discriminate].
Qed.

Lemma forward_raw_array_raises_witness :
  fst (MeanSquaredError.forward
         (PyArray (Np.mk_array [2] [Fin 3; Fin 5]))
         (PyTensor (Tensor_of (Np.mk_array [2] [Fin 1; Fin 1]))) ∅) =
    Raise (RuntimeError
             "Expected Tensors, got ndarray and Tensor. Please use .loss() method for non-Tensor data").
Proof.
  apply (forward_raw_array_raises
           (PyArray (Np.mk_array [2] [Fin 3; Fin 5]))
           (PyTensor (Tensor_of (Np.mk_array [2] [Fin 1; Fin 1]))) ∅).
  left. exists (Np.mk_array [2] [Fin 3; Fin 5]). reflexivity.
Defined.

(** C10.  When an argument is not a Tensor, [forward] raises its type
    error and the context it was given is the context it leaves:
    nothing was written, [derivative_core] in particular is as it
    was. *)
Theorem forward_type_error_keeps_ctx (prediction target : pyobj) (c : context) :
  type_name prediction <> "Tensor" \/ type_name target <> "Tensor" ->
  fst (MeanSquaredError.forward prediction target c) =
    Raise (RuntimeError (MeanSquaredError.type_error_message prediction target))
  /\ snd (MeanSquaredError.forward prediction target c) = c
  /\ snd (MeanSquaredError.forward prediction target c) !! "derivative_core"
       = c !! "derivative_core".
Proof.
  intros H. rewrite (forward_type_error _ _ c H). simpl. auto.
Qed.

Lemma forward_type_error_keeps_ctx_witness :
  snd (MeanSquaredError.forward
         (PyTensor (mk_Tensor (Np.mk_array [1] [Fin 3]) true true))
         (PyArray (Np.mk_array [1] [Fin 1])) ∅) = ∅.
Proof.
  apply (forward_type_error_keeps_ctx
           (PyTensor (mk_Tensor (Np.mk_array [1] [Fin 3]) true true))
           (PyArray (Np.mk_array [1] [Fin 1])) ∅).
  right. discriminate.
Defined.

(** Every error of [forward], not only the type error, comes before the
    write to the context. *)
Lemma forward_error_keeps_ctx (prediction target : pyobj) (c : context) (e : exn) :
  fst (MeanSquaredError.forward prediction target c) = Raise e ->
  snd (MeanSquaredError.forward prediction target c) = c.
Proof.
  unfold MeanSquaredError.forward.
  destruct (negb _); [reflexivity|].
  unfold mbind, CtxM_bind, cbind, lift, mret, CtxM_ret, cret, setattr.
  destruct (attr_requires_grad prediction) as [rg|]; [|reflexivity].
  destruct (attr_data target) as [td|]; [|reflexivity].
  destruct (Np.shape0 td) as [n|]; [|reflexivity].
  destruct (attr_data prediction) as [pd|]; [|reflexivity].
  destruct (Np.subtract pd td) as [d|]; [|reflexivity].
  destruct rg; simpl; discriminate.
Qed.

(** ** Claims about [MeanSquaredError.backward] *)

Lemma bshape_rev_nonempty (r1 r2 r : list nat) (n : nat) :
  Np.bshape_rev r1 (n :: r2) = Some r -> r <> [].
Proof.
  destruct r1 as [|a r1]; simpl.
  - intros [= <-]. discriminate.
  - destruct (Np.bdim a n), (Np.bshape_rev r1 r2); intros [= <-]; discriminate.
Qed.

Lemma broadcast_shapes_nonempty (s1 s2 r : list nat) (n : nat) :
  Np.broadcast_shapes s1 (n :: s2) = Some r -> r <> [].
Proof.
  unfold Np.broadcast_shapes. simpl.
  destruct (rev s2 ++ [n]) as [|m r2] eqn:E.
  { now destruct (rev s2). }
  destruct (Np.bshape_rev (rev s1) (m :: r2)) as [r'|] eqn:E'; [|discriminate].
  intros [= <-]. apply bshape_rev_nonempty in E'.
  intros H. apply E'. apply (f_equal (@rev nat)) in H.
  now rewrite rev_involutive in H.
Qed.

(** What [backward] does on a context that holds [derivative_core],
    for the scalar gradient that reaches a loss node. *)
Lemma backward_scalar_grad (g : Tensor) (c : context) (d : Np.array npfloat)
    (n : nat) (s : list nat) :
  c !! "derivative_core" = Some d ->
  Np.shape d = n :: s ->
  Np.shape (data g) = [] ->
  exists grad : Tensor,
    MeanSquaredError.backward g c = (Ok grad, c)
    /\ Np.shape (data grad) = Np.shape d.
Proof.
  intros Hc Hs Hg. unfold MeanSquaredError.backward.
  unfold mbind, CtxM_bind, cbind, lift, mret, CtxM_ret, cret, getattr.
  rewrite Hc. unfold Np.shape0. rewrite Hs.
  unfold Np.multiply, Np.broadcast2. simpl Np.shape.
  rewrite Hg, Hs, broadcast_shapes_nil_r.
  unfold unbroadcast. simpl Np.shape.
  rewrite broadcast_shapes_refl.
  destruct (decide (Some (n :: s) = Some (n :: s))) as [_|Hn]; [|contradiction].
  eexists. split; reflexivity.
Qed.

(** The gradient [backward] returns has the shape of the difference
    that [forward] stored, that is, the shape prediction and target
    broadcast to. *)
Lemma backward_shape_is_broadcast_shape (p t g : Tensor) (c : context)
    (n : nat) (s : list nat) (diff : Np.array npfloat) :
  requires_grad p = true ->
  Np.shape (data t) = n :: s ->
  Np.subtract (data p) (data t) = Ok diff ->
  Np.shape (data g) = [] ->
  exists (out grad : Tensor) (c' : context),
    MeanSquaredError.forward (PyTensor p) (PyTensor t) c = (Ok out, c')
    /\ MeanSquaredError.backward g c' = (Ok grad, c')
    /\ Np.broadcast_shapes (Np.shape (data p)) (Np.shape (data t))
         = Some (Np.shape (data grad)).
Proof.
  intros Hrg Hs Hd Hg.
  pose proof (broadcast2_shape _ _ _ _ _ _ Hd) as Hb.
  assert (Hne : Np.shape diff <> []).
  { rewrite Hs in Hb. now apply broadcast_shapes_nonempty in Hb. }
  destruct (Np.shape diff) as [|m s'] eqn:Hsd; [contradiction|].
  destruct (backward_scalar_grad g (<["derivative_core" := diff]> c) diff m s')
    as (grad & Hbw & Hsh); try assumption.
  { apply lookup_insert_eq. }
  exists (mk_Tensor
            (Np.scalar (fdiv (fsum (map fsquare (Np.data diff))) (of_nat (2 * n))))
            (requires_grad p) (negb (requires_grad p))),
         grad, (<["derivative_core" := diff]> c).
  split; [|split].
  - rewrite (forward_tensors _ _ _ _ _ _ Hs Hd). now rewrite Hrg.
  - exact Hbw.
  - now rewrite Hsh, Hsd.
Qed.

(** C2 fails on the code.  A prediction of shape (1,) that requires a
    gradient, a target of shape (4,3), the scalar gradient 1: the
    gradient [backward] returns has shape (4,3), the shape of the
    broadcast difference, not the prediction's shape (1,). *)
Theorem backward_keeps_broadcast_shape :
  let p := mk_Tensor (Np.mk_array [1] [Fin 2]) true true in
  let t := Tensor_of (Np.mk_array [4; 3] (repeat (Fin 1) 12)) in
  let g := Tensor_of (Np.scalar (Fin 1)) in
  exists (out grad : Tensor) (c' : context),
    MeanSquaredError.forward (PyTensor p) (PyTensor t) ∅ = (Ok out, c')
    /\ MeanSquaredError.backward g c' = (Ok grad, c')
    /\ Np.shape (data grad) = [4; 3]
    /\ Np.shape (data p) = [1].
Proof.
  intros p t g.
  destruct (backward_shape_is_broadcast_shape p t g ∅ 4 [3]
              (Np.build [4; 3] (fun idx =>
                 fsub (Np.get NaN (data p) (Np.bidx [1] idx))
                      (Np.get NaN (data t) (Np.bidx [4; 3] idx)))))
    as (out & grad & c' & Hf & Hb & Hs); try reflexivity.
  exists out, grad, c'. repeat split; try assumption.
  simpl in Hs. now injection Hs as <-.
Qed.

(** ** Claims about the classical losses *)

(** C6 fails on the code.  [MeanSquaredLogLoss.loss] looks up
    [activations] on the Sigmoid instance, an attribute the class does
    not have (the other losses call [activation]): for every array [X]
    with a leading axis the call raises AttributeError and no loss is
    returned. *)
Theorem msll_loss_raises (Sigmoid : SigmoidClass) (X Y W : Np.array npfloat)
    (M : nat) (s : list nat) :
  Np.shape X = M :: s ->
  MeanSquaredLogLoss.loss Sigmoid X Y W
    = Raise (AttributeError "Sigmoid" "activations").
Proof.
  intros H. unfold MeanSquaredLogLoss.loss, Np.shape0. rewrite H. reflexivity.
Qed.

Lemma msll_loss_raises_witness :
  MeanSquaredLogLoss.loss (mk_Sigmoid (fun x => x))
    (Np.mk_array [1; 1] [Fin 1]) (Np.mk_array [1; 1] [Fin 0])
    (Np.mk_array [1; 1] [Fin 1])
    = Raise (AttributeError "Sigmoid" "activations").
Proof.
  apply (msll_loss_raises (mk_Sigmoid (fun x => x))
           (Np.mk_array [1; 1] [Fin 1]) (Np.mk_array [1; 1] [Fin 0])
           (Np.mk_array [1; 1] [Fin 1]) 1 [1]).
  reflexivity.
Defined.

(** The sibling path: the same lookup with the name the other losses
    use succeeds. *)
Lemma sigmoid_activation_found (Sigmoid : SigmoidClass) :
  Sigmoid_getattr Sigmoid "activation" = Ok (Np.map_ (activation Sigmoid)).
Proof. reflexivity. Qed.

(** Attribute lookup on [MSELoss] falls through to its base. *)
Lemma MSELoss_getattr (fns : list (string * method)) (name : string) :
  class_getattr (MSELoss fns) name
  = class_getattr (MeanSquaredError_class fns) name.
Proof.
  unfold MSELoss. generalize (MeanSquaredError_class fns). intros c. simpl.
  now destruct (class_getattr c name).
Qed.

(** C9.  [MSELoss] adds nothing to [MeanSquaredError]: every attribute
    resolves to what [MeanSquaredError] resolves it to, so every call
    through [MSELoss] returns what the same call through
    [MeanSquaredError] returns; [forward], [backward], [loss] and
    [derivative] are the functions of [MeanSquaredError] themselves. *)
Theorem MSELoss_is_alias (fns : list (string * method)) :
  (forall name args,
     call_attr (MSELoss fns) name args
     = call_attr (MeanSquaredError_class fns) name args)
  /\ (forall c p t,
        call_attr (MSELoss fns) "forward" (ArgsForward c p t)
        = Some (ResNode (MeanSquaredError.forward p t c)))
  /\ (forall c g,
        call_attr (MSELoss fns) "backward" (ArgsBackward c g)
        = Some (ResNode (MeanSquaredError.backward g c)))
  /\ (forall X Y W,
        call_attr (MSELoss fns) "loss" (ArgsXYW X Y W)
        = Some (ResFloat (MeanSquaredError.loss X Y W)))
  /\ (forall X Y W,
        call_attr (MSELoss fns) "derivative" (ArgsXYW X Y W)
        = Some (ResArray (MeanSquaredError.derivative X Y W))).
Proof.
  split; [|repeat split].
  intros name args. unfold call_attr. now rewrite MSELoss_getattr.
Qed.

(** ** Huber *)

Section HuberFacts.
Local Open Scope R_scope.



End HuberFacts.

Lemma get_map_ {A B : Type} (dA : A) (g : A -> B) (a : Np.array A) (idx : list nat) :
  Np.get (g dA) (Np.map_ g a) idx = g (Np.get dA a idx).
Proof. unfold Np.get, Np.map_. simpl. apply map_nth. Qed.

Lemma where_same_shape (c : Np.array bool) (x y : Np.array npfloat) :
  Np.shape c = Np.shape x -> Np.shape y = Np.shape x ->
  Np.where_ c x y =
    Ok (Np.build (Np.shape x) (fun idx =>
          if Np.get false c idx then Np.get NaN x idx else Np.get NaN y idx)).
Proof.
  intros Hc Hy. unfold Np.where_.
  rewrite Hc, broadcast_shapes_refl, Hy, broadcast_shapes_refl.
  f_equal. apply build_ext. intros idx H. now rewrite bidx_valid.
Qed.

(** Every element of the array [Huber.loss] returns is one of the two
    branches, chosen by the comparison with [delta]. *)
Lemma huber_loss_elements (X Y D : Np.array npfloat) (delta : npfloat) :
  Np.subtract X Y = Ok D ->
  exists L,
    Huber.loss X Y delta = Ok L
    /\ Np.shape L = Np.shape D
    /\ forall idx, Np.valid (Np.shape D) idx ->
         Np.get NaN L idx =
           if fle (fabs (Np.get NaN D idx)) delta
           then Huber_smooth (Np.get NaN D idx)
           else Huber_linear delta (Np.get NaN D idx).
Proof.
  intros HD. unfold Huber.loss. rewrite HD.
  unfold mbind, result_bind, rbind.
  rewrite where_same_shape by reflexivity.
  eexists. split; [reflexivity|]. split; [reflexivity|].
  intros idx Hv. simpl Np.shape. rewrite get_build by exact Hv.
  unfold Np.less_equal_scalar, Np.absolute, Np.scale, Np.power2, Np.sub_scalar.
  change false with ((fun y => fle y delta) (fabs NaN)).
  rewrite (get_map_ (fabs NaN) (fun y => fle y delta)).
  rewrite (get_map_ NaN fabs).
  destruct (fle (fabs (Np.get NaN D idx)) delta).
  - change NaN with (fmul (Fin (1/2)) (fsquare NaN)) at 1.
    rewrite (get_map_ (fsquare NaN) (fun y => fmul (Fin (1/2)) y)).
    change (fsquare NaN) with NaN.
    rewrite (get_map_ NaN fsquare). reflexivity.
  - replace NaN with (fmul delta (fsub (fabs NaN) (fmul (Fin (1/2)) delta))) at 1
      by (destruct delta; reflexivity).
    rewrite (get_map_ (fsub (fabs NaN) (fmul (Fin (1/2)) delta))
               (fun y => fmul delta y)).
    rewrite (get_map_ (fabs NaN) (fun y => fsub y (fmul (Fin (1/2)) delta))).
    rewrite (get_map_ NaN fabs). reflexivity.
Qed.



(** ** The classical functions in the layouts of the module *)

Lemma valid_1_inv (n : nat) (idx : list nat) :
  Np.valid [n] idx -> exists i, idx = [i] /\ i < n.
Proof.
  unfold Np.valid. intros H. inversion H as [|i n' idx' s' Hi H']; subst.
  inversion H'; subst. eauto.
Qed.

Lemma valid_2_inv (a b : nat) (idx : list nat) :
  Np.valid [a; b] idx -> exists i j, idx = [i; j] /\ i < a /\ j < b.
Proof.
  unfold Np.valid. intros H. inversion H as [|i n' idx' s' Hi H']; subst.
  inversion H' as [|j n'' idx'' s'' Hj H'']; subst.
  inversion H''; subst. eauto.
Qed.

Lemma valid_rev (s idx : list nat) : Np.valid s idx -> Np.valid (rev s) (rev idx).
Proof.
  unfold Np.valid. induction 1 as [|i n idx s Hi H IH]; simpl; [constructor|].
  apply Forall2_app; [exact IH | repeat constructor; exact Hi].
Qed.

Lemma T_build (s : list nat) (f : list nat -> npfloat) :
  Np.T (Np.build s f) = Np.build (rev s) (fun idx => f (rev idx)).
Proof.
  unfold Np.T. simpl Np.shape. apply build_ext. intros idx H.
  apply get_build. rewrite <- (rev_involutive s). now apply valid_rev.
Qed.

Lemma map_build {A B : Type} (g : A -> B) (s : list nat) (f : list nat -> A) :
  Np.map_ g (Np.build s f) = Np.build s (fun idx => g (f idx)).
Proof. unfold Np.map_, Np.build. simpl. now rewrite map_map. Qed.

Lemma bidx_row (M a i : nat) : i < M -> Np.bidx [M] [a; i] = [i].
Proof. intros H. apply (bidx_suffix [M] [a] [i]). repeat constructor. exact H. Qed.

(** [np.dot] of the design matrix with the weights. *)
Lemma dot_matrix_weights (wcol : bool) (M n : nat) (X W : Np.array npfloat) :
  Np.shape X = [M; n] ->
  Np.shape W = weights_shape wcol n ->
  Np.dot X W =
    Ok (Np.build (if wcol then [M; 1] else [M]) (fun idx =>
          fsum_upto n (fun t =>
            fmul (entry X (default 0 (head idx)) t) (weight_at wcol W t)))).
Proof.
  intros HX HW. unfold Np.dot. rewrite HX, HW. destruct wcol; simpl.
  - rewrite decide_True by reflexivity. f_equal. apply build_ext.
    intros idx H. apply valid_2_inv in H as (i & j & -> & Hi & Hj).
    assert (j = 0) as -> by lia. reflexivity.
  - rewrite decide_True by reflexivity. f_equal. apply build_ext.
    intros idx H. apply valid_1_inv in H as (i & -> & Hi). reflexivity.
Qed.

(** The residual array [np.dot(X, W).T - Y], sample by sample. *)
Lemma residual_array (wcol yrow : bool) (M n : nat) (X Y W : Np.array npfloat) :
  Np.shape X = [M; n] ->
  Np.shape W = weights_shape wcol n ->
  Np.shape Y = targets_shape yrow M ->
  (P ← Np.dot X W; Np.subtract (Np.T P) Y)
  = Ok (Np.build (residual_shape wcol yrow M)
          (fun idx => spec_residual wcol yrow n X Y W (default 0 (last idx)))).
Proof.
  intros HX HW HY. rewrite (dot_matrix_weights wcol M n X W HX HW).
  unfold mbind, result_bind, rbind. rewrite T_build.
  unfold Np.subtract, Np.broadcast2. simpl Np.shape. rewrite HY.
  destruct wcol, yrow; simpl rev; unfold targets_shape, residual_shape;
    simpl orb; unfold Np.broadcast_shapes; simpl; rewrite ?bdim_refl; simpl;
    f_equal; apply build_ext; intros idx H.
  - apply valid_2_inv in H as (a & i & -> & Ha & Hi).
    assert (a = 0) as -> by lia.
    rewrite (bidx_valid [1; M]) by valid_tac.
    rewrite get_build by valid_tac. reflexivity.
  - apply valid_2_inv in H as (a & i & -> & Ha & Hi).
    assert (a = 0) as -> by lia.
    rewrite (bidx_valid [1; M]) by valid_tac.
    rewrite (bidx_row M 0 i) by lia.
    rewrite get_build by valid_tac. reflexivity.
  - apply valid_2_inv in H as (a & i & -> & Ha & Hi).
    assert (a = 0) as -> by lia.
    rewrite (bidx_valid [1; M]) by valid_tac.
    rewrite (bidx_row M 0 i) by lia.
    rewrite get_build by valid_tac. reflexivity.
  - apply valid_1_inv in H as (i & -> & Hi).
    rewrite !(bidx_valid [M]) by valid_tac.
    rewrite get_build by valid_tac. reflexivity.
Qed.

Lemma fsum_upto_ext (n : nat) (f g : nat -> npfloat) :
  (forall t, t < n -> f t = g t) -> fsum_upto n f = fsum_upto n g.
Proof.
  intros H. unfold fsum_upto. f_equal. apply map_ext_in.
  intros t Ht. apply H. apply in_seq in Ht. lia.
Qed.

(** The sum of an array that holds one value per sample. *)
Lemma sum_per_sample (b : bool) (M : nat) (f : nat -> npfloat) :
  Np.sum (Np.build (if b then [1; M] else [M])
            (fun idx => f (default 0 (last idx))))
  = fsum_upto M f.
Proof.
  unfold Np.sum, Np.build, fsum_upto. simpl Np.data.
  destruct b; [rewrite indices_1n | rewrite indices_1]; now rewrite map_map.
Qed.

(** [np.dot] of a per-sample array with the design matrix. *)
Lemma dot_samples_matrix (b : bool) (M n : nat) (r : nat -> npfloat)
    (X : Np.array npfloat) :
  Np.shape X = [M; n] ->
  Np.dot (Np.build (if b then [1; M] else [M])
            (fun idx => r (default 0 (last idx)))) X
  = Ok (Np.build (if b then [1; n] else [n]) (fun idx =>
          fsum_upto M (fun t => fmul (r t) (entry X t (default 0 (last idx)))))).
Proof.
  intros HX. unfold Np.dot. simpl Np.shape. rewrite HX.
  destruct b; simpl; rewrite decide_True by reflexivity;
    f_equal; apply build_ext; intros idx H.
  - apply valid_2_inv in H as (a & j & -> & Ha & Hj).
    assert (a = 0) as -> by lia. simpl.
    apply fsum_upto_ext. intros t Ht.
    rewrite get_build by valid_tac. reflexivity.
  - apply valid_1_inv in H as (j & -> & Hj). simpl.
    apply fsum_upto_ext. intros t Ht.
    rewrite get_build by valid_tac. reflexivity.
Qed.

(** ... transposed and divided by the number of samples: the gradient. *)
Lemma gradient_of_samples (b : bool) (M n : nat) (r : nat -> npfloat)
    (X : Np.array npfloat) :
  Np.shape X = [M; n] ->
  (G ← Np.dot (Np.build (if b then [1; M] else [M])
                 (fun idx => r (default 0 (last idx)))) X;
   mret (Np.divide_int (Np.T G) M))
  = Ok (Np.build (if b then [n; 1] else [n]) (fun idx =>
          fdiv (fsum_upto M (fun t =>
                  fmul (r t) (entry X t (default 0 (head idx)))))
               (of_nat M))).
Proof.
  intros HX. rewrite (dot_samples_matrix b M n r X HX).
  unfold mbind, result_bind, rbind, mret, result_ret.
  rewrite T_build. unfold Np.divide_int. rewrite map_build.
  f_equal. destruct b; simpl rev; apply build_ext; intros idx H.
  - apply valid_2_inv in H as (j & a & -> & Hj & Ha).
    assert (a = 0) as -> by lia. reflexivity.
  - apply valid_1_inv in H as (j & -> & Hj). reflexivity.
Qed.

Lemma shape0_matrix (M n : nat) (X : Np.array npfloat) :
  Np.shape X = [M; n] -> Np.shape0 X = Ok M.
Proof. intros H. unfold Np.shape0. now rewrite H. Qed.

Lemma residual_shape_cases (wcol yrow : bool) (M : nat) :
  residual_shape wcol yrow M = if wcol || yrow then [1; M] else [M].
Proof. reflexivity. Qed.

(** The legacy loss, in the layouts of the module, is the formula of
    the specification. *)
Lemma mse_loss_layout (wcol yrow : bool) (M n : nat) (X Y W : Np.array npfloat) :
  Np.shape X = [M; n] ->
  Np.shape W = weights_shape wcol n ->
  Np.shape Y = targets_shape yrow M ->
  MeanSquaredError.loss X Y W = Ok (spec_mse_loss wcol yrow M n X Y W).
Proof.
  intros HX HW HY. pose proof (residual_array wcol yrow M n X Y W HX HW HY) as HR.
  unfold MeanSquaredError.loss. rewrite (shape0_matrix M n X HX).
  unfold mbind, result_bind, rbind, mret, result_ret in *.
  destruct (Np.dot X W) as [P|]; [|discriminate]. rewrite HR.
  unfold spec_mse_loss. do 2 f_equal.
  unfold Np.power2. rewrite map_build, residual_shape_cases.
  apply (sum_per_sample (wcol || yrow) M
           (fun i => fsquare (spec_residual wcol yrow n X Y W i))).
Qed.

(** So is the legacy derivative. *)
Lemma mse_derivative_layout (wcol yrow : bool) (M n : nat)
    (X Y W : Np.array npfloat) :
  Np.shape X = [M; n] ->
  Np.shape W = weights_shape wcol n ->
  Np.shape Y = targets_shape yrow M ->
  MeanSquaredError.derivative X Y W =
    Ok (Np.build (gradient_shape wcol yrow n) (fun idx =>
          spec_mse_derivative wcol yrow M n X Y W (default 0 (head idx)))).
Proof.
  intros HX HW HY. pose proof (residual_array wcol yrow M n X Y W HX HW HY) as HR.
  unfold MeanSquaredError.derivative. rewrite (shape0_matrix M n X HX).
  pose proof (gradient_of_samples (wcol || yrow) M n
                (spec_residual wcol yrow n X Y W) X HX) as HG.
  unfold mbind, result_bind, rbind, mret, result_ret in *.
  destruct (Np.dot X W) as [P|]; [|discriminate]. rewrite HR.
  rewrite residual_shape_cases. exact HG.
Qed.

(** The legacy loss and the node compute the same scalar when the
    target's leading axis has the size of the design matrix's. *)
Lemma legacy_loss_is_forward (X Y W P : Np.array npfloat) (M : nat)
    (rg lf rg' lf' : bool) (c : context) :
  Np.shape0 X = Ok M ->
  Np.shape0 Y = Ok M ->
  Np.dot X W = Ok P ->
  fst (MeanSquaredError.forward (PyTensor (mk_Tensor (Np.T P) rg lf))
         (PyTensor (mk_Tensor Y rg' lf')) c)
  = (v ← MeanSquaredError.loss X Y W;
     mret (mk_Tensor (Np.scalar v) rg (negb rg))).
Proof.
  intros HX HY HP. unfold MeanSquaredError.forward, MeanSquaredError.loss.
  rewrite type_check_tensors.
  unfold mbind, CtxM_bind, cbind, lift, mret, CtxM_ret, cret, setattr,
    result_bind, rbind, result_ret.
  simpl attr_requires_grad. simpl attr_data.
  rewrite HX, HY, HP.
  destruct (Np.subtract (Np.T P) Y) as [d|]; [|reflexivity].
  destruct rg; reflexivity.
Qed.

(** C4 (as amended).  In the layouts of the module the legacy loss is
    sum((X·W - Y)^2) / (2M) and the legacy derivative is
    dot((X·W - Y), X) / M, with M = X.shape[0]; and the loss is the
    data of the Tensor that [forward] returns for the prediction
    (X·W).T and the target Y whenever the leading axis of Y has size M
    as well. *)
Theorem legacy_mse_formulas (wcol yrow : bool) (M n : nat)
    (X Y W : Np.array npfloat) :
  Np.shape X = [M; n] ->
  Np.shape W = weights_shape wcol n ->
  Np.shape Y = targets_shape yrow M ->
  MeanSquaredError.loss X Y W = Ok (spec_mse_loss wcol yrow M n X Y W)
  /\ MeanSquaredError.derivative X Y W =
       Ok (Np.build (gradient_shape wcol yrow n) (fun idx =>
             spec_mse_derivative wcol yrow M n X Y W (default 0 (head idx))))
  /\ (Np.shape0 Y = Ok M ->
      forall (P : Np.array npfloat) (rg lf rg' lf' : bool) (c : context),
        Np.dot X W = Ok P ->
        fst (MeanSquaredError.forward (PyTensor (mk_Tensor (Np.T P) rg lf))
               (PyTensor (mk_Tensor Y rg' lf')) c)
        = Ok (mk_Tensor (Np.scalar (spec_mse_loss wcol yrow M n X Y W))
                rg (negb rg))).
Proof.
  intros HX HW HY.
  pose proof (mse_loss_layout wcol yrow M n X Y W HX HW HY) as HL.
  split; [exact HL|]. split; [now apply mse_derivative_layout|].
  intros HY0 P rg lf rg' lf' c HP.
  rewrite (legacy_loss_is_forward X Y W P M rg lf rg' lf' c
             (shape0_matrix M n X HX) HY0 HP).
  now rewrite HL.
Qed.

Section Examples.

Lemma legacy_mse_formulas_witness :
  let X := Np.mk_array [2; 1] [Fin 1; Fin 2] in
  let W := Np.mk_array [1] [Fin 1] in
  let Y := Np.mk_array [2] [Fin 0; Fin 0] in
  MeanSquaredError.loss X Y W = Ok (spec_mse_loss false false 2 1 X Y W).
Proof.
  intros X W Y.
  apply (legacy_mse_formulas false false 2 1 X Y W); reflexivity.
Defined.

Lemma INR_2 : INR 2 = 2%R.
Proof. simpl. lra. Qed.

Lemma INR_4 : INR 4 = 4%R.
Proof. simpl. lra. Qed.

(** C4, as stated, fails for targets laid out as a row: with X of shape
    (2,1), W of shape (1,1) and Y of shape (1,2) the legacy loss divides
    by 2M = 4 and [forward], whose batch size is Y.shape[0] = 1, divides
    by 2, whether the prediction is (X·W).T or X·W. *)
Lemma legacy_loss_differs_from_forward :
  let X := Np.mk_array [2; 1] [Fin 1; Fin 2] in
  let W := Np.mk_array [1; 1] [Fin 1] in
  let Y := Np.mk_array [1; 2] [Fin 0; Fin 0] in
  exists (P : Np.array npfloat) (v : npfloat) (out out' : Tensor),
    Np.dot X W = Ok P
    /\ MeanSquaredError.loss X Y W = Ok v
    /\ fst (MeanSquaredError.forward (PyTensor (Tensor_of (Np.T P)))
              (PyTensor (Tensor_of Y)) ∅) = Ok out
    /\ fst (MeanSquaredError.forward (PyTensor (Tensor_of P))
              (PyTensor (Tensor_of Y)) ∅) = Ok out'
    /\ data out <> Np.scalar v
    /\ data out' <> Np.scalar v.
Proof.
  intros X W Y.
  exists (Np.mk_array [2; 1] [Fin (0 + 1 * 1)%R; Fin (0 + 2 * 1)%R]),
         (Fin ((0 + (0 + 1 * 1 + - 0) * (0 + 1 * 1 + - 0)
                  + (0 + 2 * 1 + - 0) * (0 + 2 * 1 + - 0)) / 4)%R).
  eexists. eexists.
  split; [reflexivity|]. split; [|split; [|split]].
  - lazy -[fdiv INR IZR Rplus Rmult Ropp Rdiv].
    rewrite fdiv_fin by (rewrite INR_4; lra). now rewrite INR_4.
  - lazy -[fdiv INR IZR Rplus Rmult Ropp Rdiv].
    rewrite fdiv_fin by (rewrite INR_2; lra).
    rewrite INR_2. reflexivity.
  - lazy -[fdiv INR IZR Rplus Rmult Ropp Rdiv].
    rewrite fdiv_fin by (rewrite INR_2; lra).
    rewrite INR_2. reflexivity.
  - split; cbn; intros [= H]; lra.
Qed.

End Examples.

(** ** The guarded division of [AbsoluteError.derivative] *)

Section GuardedSign.
Local Open Scope R_scope.

Lemma guarded_sign_zero : guarded_sign (Fin 0) = Fin 0.
Proof.
  unfold guarded_sign. simpl. rewrite Rabs_R0.
  destruct (Req_dec_T 0 0); [reflexivity | contradiction].
Qed.

(** Without the guard the same element would be NaN. *)
Lemma unguarded_sign_zero : fdiv (Fin 0) (fabs (Fin 0)) = NaN.
Proof. simpl. now rewrite Rabs_R0, Rcmp0_zero. Qed.


Lemma fadd_zero_r (x : npfloat) : fadd x (Fin 0) = x.
Proof. destruct x; simpl; try reflexivity. f_equal. lra. Qed.

End GuardedSign.

(** A summand that is zero can be left out of the sum. *)
Lemma fold_fadd_skip_zero (f : nat -> npfloat) (i : nat) (l : list nat)
    (acc : npfloat) :
  f i = Fin 0 ->
  fold_left fadd (map f l) acc
  = fold_left fadd (map f (filter (fun t => t <> i) l)) acc.
Proof.
  intros Hi. revert acc. induction l as [|t l IH]; intros acc; [reflexivity|].
  rewrite filter_cons. simpl. destruct (decide (t <> i)) as [Hn|He].
  - simpl. apply IH.
  - assert (t = i) as -> by (destruct (decide (t = i)); [assumption | contradiction]).
    rewrite Hi, fadd_zero_r. apply IH.
Qed.

Lemma divide_where_same_shape (x1 x2 o : Np.array npfloat) (m : Np.array bool) :
  Np.shape x2 = Np.shape x1 -> Np.shape m = Np.shape x1 ->
  Np.shape o = Np.shape x1 ->
  Np.divide_where x1 x2 o m =
    Ok (Np.build (Np.shape x1) (fun idx =>
          if Np.get false m idx
          then fdiv (Np.get NaN x1 idx) (Np.get NaN x2 idx)
          else Np.get NaN o idx)).
Proof.
  intros H2 Hm Ho. unfold Np.divide_where.
  rewrite H2, broadcast_shapes_refl, Hm, broadcast_shapes_refl, Ho,
    broadcast_shapes_refl.
  rewrite decide_True by reflexivity.
  f_equal. apply build_ext. intros idx H. now rewrite !bidx_valid.
Qed.

(** The array of guarded signs of a residual array. *)
Lemma sign_array (s : list nat) (r : list nat -> npfloat) :
  let E := Np.build s r in
  Np.divide_where E (Np.absolute E) (Np.zeros_like E)
    (Np.not_equal_scalar (Np.absolute E) (Fin 0))
  = Ok (Np.build s (fun idx => guarded_sign (r idx))).
Proof.
  intros E. rewrite divide_where_same_shape by reflexivity.
  subst E. unfold Np.absolute, Np.zeros_like, Np.not_equal_scalar.
  rewrite !map_build. simpl Np.shape. f_equal. apply build_ext. intros idx H.
  rewrite !get_build by exact H. reflexivity.
Qed.

(** Whatever the shapes, once the residual array is computed the
    guarded division succeeds and gives the guarded sign of every
    element. *)
Lemma abs_sign_array_any_shape (R : Np.array npfloat) (A B : Np.array npfloat) :
  Np.subtract A B = Ok R ->
  exists S,
    Np.divide_where R (Np.absolute R) (Np.zeros_like R)
      (Np.not_equal_scalar (Np.absolute R) (Fin 0)) = Ok S
    /\ Np.shape S = Np.shape R
    /\ forall idx, Np.valid (Np.shape R) idx ->
         Np.get NaN S idx = guarded_sign (Np.get NaN R idx).
Proof.
  unfold Np.subtract, Np.broadcast2.
  destruct (Np.broadcast_shapes (Np.shape A) (Np.shape B)) as [s|]; [|discriminate].
  intros [= <-]. rewrite sign_array. eexists. split; [reflexivity|].
  split; [reflexivity|]. intros idx H. simpl Np.shape in H.
  now rewrite !get_build.
Qed.

Lemma abs_derivative_layout (wcol yrow : bool) (M n : nat)
    (X Y W : Np.array npfloat) :
  Np.shape X = [M; n] ->
  Np.shape W = weights_shape wcol n ->
  Np.shape Y = targets_shape yrow M ->
  AbsoluteError.derivative X Y W =
    Ok (Np.build (gradient_shape wcol yrow n) (fun idx =>
          fdiv (fsum_upto M (fun t =>
                  fmul (guarded_sign (spec_residual wcol yrow n X Y W t))
                       (entry X t (default 0 (head idx)))))
               (of_nat M))).
Proof.
  intros HX HW HY. pose proof (residual_array wcol yrow M n X Y W HX HW HY) as HR.
  unfold AbsoluteError.derivative. rewrite (shape0_matrix M n X HX).
  pose proof (gradient_of_samples (wcol || yrow) M n
                (fun t => guarded_sign (spec_residual wcol yrow n X Y W t))
                X HX) as HG.
  unfold mbind, result_bind, rbind, mret, result_ret in *.
  destruct (Np.dot X W) as [P|]; [|discriminate]. rewrite HR.
  rewrite sign_array. rewrite residual_shape_cases. exact HG.
Qed.

(** A sample whose residual is exactly zero has finite features. *)
Lemma zero_residual_finite_row (wcol yrow : bool) (n : nat)
    (X Y W : Np.array npfloat) (i j : nat) :
  spec_residual wcol yrow n X Y W i = Fin 0 -> j < n -> is_fin (entry X i j).
Proof.
  unfold spec_residual. intros H Hj.
  apply fsub_fin_inv in H as (a & b & Ha & _ & _).
  destruct (fsum_upto_fin_inv n _ a j Ha Hj) as [p Hp].
  apply fmul_fin_inv in Hp as (x & w & Hx & _ & _). now exists x.
Qed.

(** C5.  In the layouts of the module, when the residual of sample [i]
    is exactly zero, [AbsoluteError.derivative] returns a gradient in
    whose every component the term of that sample is 0: the guarded
    division gives the sign 0 there, not NaN, and the component is the
    sum over the other samples. *)
Theorem abs_derivative_zero_residual (wcol yrow : bool) (M n : nat)
    (X Y W : Np.array npfloat) (i : nat) :
  Np.shape X = [M; n] ->
  Np.shape W = weights_shape wcol n ->
  Np.shape Y = targets_shape yrow M ->
  i < M ->
  spec_residual wcol yrow n X Y W i = Fin 0 ->
  let sgn := fun t => guarded_sign (spec_residual wcol yrow n X Y W t) in
  exists G : Np.array npfloat,
    AbsoluteError.derivative X Y W = Ok G
    /\ sgn i = Fin 0
    /\ sgn i <> NaN
    /\ forall j, j < n ->
         fmul (sgn i) (entry X i j) = Fin 0
         /\ Np.get NaN G (gradient_pos wcol yrow j)
            = fdiv (fsum (map (fun t => fmul (sgn t) (entry X t j))
                             (filter (fun t => t <> i) (seq 0 M))))
                   (of_nat M).
Proof.
  intros HX HW HY Hi Hr sgn.
  assert (Hs : sgn i = Fin 0).
  { unfold sgn. rewrite Hr. apply guarded_sign_zero. }
  assert (Hterm : forall j, j < n -> fmul (sgn i) (entry X i j) = Fin 0).
  { intros j Hj. rewrite Hs.
    destruct (zero_residual_finite_row wcol yrow n X Y W i j Hr Hj) as [x ->].
    apply fmul_zero_fin. }
  eexists. split; [apply (abs_derivative_layout wcol yrow M n X Y W HX HW HY)|].
  split; [exact Hs|]. split; [rewrite Hs; discriminate|].
  intros j Hj. split; [now apply Hterm|].
  rewrite get_build.
  - f_equal. unfold gradient_pos. unfold fsum_upto, fsum.
    replace (default 0 (head (if wcol || yrow then [j; 0] else [j]))) with j
      by now destruct (wcol || yrow).
    apply (fold_fadd_skip_zero (fun t => fmul (sgn t) (entry X t j)) i).
    now apply Hterm.
  - unfold gradient_shape, gradient_pos.
    destruct (wcol || yrow); valid_tac.
Qed.

Section AbsExamples.

Lemma abs_derivative_zero_residual_witness :
  let X := Np.mk_array [1; 1] [Fin 1] in
  let W := Np.mk_array [1; 1] [Fin 1] in
  let Y := Np.mk_array [1; 1] [Fin 1] in
  guarded_sign (spec_residual true true 1 X Y W 0) = Fin 0.
Proof.
  intros X W Y.
  destruct (abs_derivative_zero_residual true true 1 1 X Y W 0)
    as (G & _ & H & _); try reflexivity; try lia.
  - unfold spec_residual, fsum_upto, fsum, entry, weight_at, target_at.
    simpl. f_equal. lra.
  - exact H.
Defined.

End AbsExamples.

(** * Further properties of the module *)

(** ** The node and its context *)

(** X1.  What [forward] leaves in the context: when the prediction
    requires a gradient, the difference under [derivative_core] and
    every other attribute as it was; when it does not, the context
    untouched. *)
Theorem forward_ctx_effect (prediction target : Tensor) (c : context)
    (batch_size : nat) (s : list nat) (diff : Np.array npfloat) :
  Np.shape (data target) = batch_size :: s ->
  Np.subtract (data prediction) (data target) = Ok diff ->
  let c' := snd (MeanSquaredError.forward (PyTensor prediction)
                   (PyTensor target) c) in
  (requires_grad prediction = true ->
     c' !! "derivative_core" = Some diff
     /\ forall k, k <> "derivative_core" -> c' !! k = c !! k)
  /\ (requires_grad prediction = false -> c' = c).
Proof.
  intros Hs Hd. rewrite (forward_tensors _ _ _ _ _ _ Hs Hd). simpl.
  split; intros ->.
  - split; [apply lookup_insert_eq|]. intros k Hk. now apply lookup_insert_ne.
  - reflexivity.
Qed.

Lemma forward_ctx_effect_witness :
  snd (MeanSquaredError.forward
         (PyTensor (mk_Tensor (Np.mk_array [1] [Fin 3]) false true))
         (PyTensor (Tensor_of (Np.mk_array [1] [Fin 1]))) ∅) = ∅.
Proof.
  apply (forward_ctx_effect
           (mk_Tensor (Np.mk_array [1] [Fin 3]) false true)
           (Tensor_of (Np.mk_array [1] [Fin 1])) ∅ 1 []
           (Np.mk_array [1] [fsub (Fin 3) (Fin 1)]));
    reflexivity.
Defined.

Lemma backward_missing_core (g : Tensor) (c : context) :
  c !! "derivative_core" = None ->
  MeanSquaredError.backward g c
  = (Raise (AttributeError "ctx" "derivative_core"), c).
Proof.
  intros H. unfold MeanSquaredError.backward.
  unfold mbind, CtxM_bind, cbind, getattr. now rewrite H.
Qed.

(** X2.  [backward] after a [forward] whose prediction does not require
    a gradient finds no [derivative_core] (on a context that held none)
    and raises AttributeError. *)
Theorem backward_after_nograd_forward (prediction target g : Tensor)
    (c : context) (batch_size : nat) (s : list nat)
    (diff : Np.array npfloat) :
  requires_grad prediction = false ->
  c !! "derivative_core" = None ->
  Np.shape (data target) = batch_size :: s ->
  Np.subtract (data prediction) (data target) = Ok diff ->
  fst (MeanSquaredError.backward g
         (snd (MeanSquaredError.forward (PyTensor prediction)
                 (PyTensor target) c)))
  = Raise (AttributeError "ctx" "derivative_core").
Proof.
  intros Hrg Hc Hs Hd. rewrite (forward_tensors _ _ _ _ _ _ Hs Hd), Hrg. simpl.
  now rewrite (backward_missing_core g c Hc).
Qed.

Lemma backward_after_nograd_forward_witness :
  fst (MeanSquaredError.backward (Tensor_of (Np.scalar (Fin 1)))
         (snd (MeanSquaredError.forward
                 (PyTensor (mk_Tensor (Np.mk_array [1] [Fin 3]) false true))
                 (PyTensor (Tensor_of (Np.mk_array [1] [Fin 1]))) ∅)))
  = Raise (AttributeError "ctx" "derivative_core").
Proof.
  apply (backward_after_nograd_forward
           (mk_Tensor (Np.mk_array [1] [Fin 3]) false true)
           (Tensor_of (Np.mk_array [1] [Fin 1]))
           (Tensor_of (Np.scalar (Fin 1))) ∅ 1 []
           (Np.mk_array [1] [fsub (Fin 3) (Fin 1)]));
    reflexivity.
Defined.

(** X3.  [backward] only reads the context: whatever it returns or
    raises, the context it leaves is the one it was given, so a second
    call on it has the same outcome. *)
Theorem backward_reads_only (g : Tensor) (c : context) :
  snd (MeanSquaredError.backward g c) = c
  /\ MeanSquaredError.backward g (snd (MeanSquaredError.backward g c))
     = MeanSquaredError.backward g c.
Proof.
  assert (H : snd (MeanSquaredError.backward g c) = c).
  { unfold MeanSquaredError.backward.
    unfold mbind, CtxM_bind, cbind, lift, mret, CtxM_ret, cret, getattr.
    destruct (c !! "derivative_core") as [d|]; [|reflexivity].
    destruct (Np.shape0 d) as [n|]; [|reflexivity].
    destruct (Np.multiply _ _) as [gp|]; [|reflexivity].
    destruct (unbroadcast gp (Np.shape d)); reflexivity. }
  split; [exact H | now rewrite H].
Qed.

(** X4.  The RuntimeError of [forward] is the type error and nothing
    else: it is raised exactly when one of the two type names is not
    [Tensor]. *)
Theorem forward_runtime_error_iff (prediction target : pyobj) (c : context) :
  (exists msg, fst (MeanSquaredError.forward prediction target c)
               = Raise (RuntimeError msg))
  <-> (type_name prediction <> "Tensor" \/ type_name target <> "Tensor").
Proof.
  split.
  - intros [msg H]. unfold MeanSquaredError.forward in H.
    destruct (negb _) eqn:E.
    + apply negb_true_iff, andb_false_iff in E.
      destruct E as [E|E]; [left | right]; now apply String.eqb_neq.
    + exfalso. revert H.
      unfold mbind, CtxM_bind, cbind, lift, mret, CtxM_ret, cret, setattr.
      destruct prediction, target; simpl; try discriminate;
        try (unfold Np.shape0; destruct (Np.shape _); simpl; try discriminate);
        try (unfold Np.subtract, Np.broadcast2;
             destruct (Np.broadcast_shapes _ _); simpl; try discriminate);
        try (destruct (requires_grad _); simpl; discriminate).
  - intros H. rewrite (forward_type_error _ _ c H). simpl. eauto.
Qed.

Lemma fadd_zero_l (x : npfloat) : fadd (Fin 0) x = x.
Proof. destruct x; simpl; try reflexivity. f_equal. lra. Qed.

Lemma fsum_singleton (x : npfloat) : fsum [x] = x.
Proof. unfold fsum. simpl. apply fadd_zero_l. Qed.

Lemma NoDup_indices (s : list nat) : NoDup (Np.indices s).
Proof.
  induction s as [|n s IH]; simpl.
  - apply NoDup_singleton.
  - change (flat_map (fun i => map (cons i) (Np.indices s)) (seq 0 n))
      with (seq 0 n ≫= (fun i => cons i <$> Np.indices s)).
    apply NoDup_bind.
    + intros x1 x2 y _ _ H1 H2.
      apply list_elem_of_fmap in H1 as (j1 & -> & _).
      apply list_elem_of_fmap in H2 as (j2 & E & _). congruence.
    + intros x _. apply NoDup_fmap_2; [|exact IH]. intros a b E. congruence.
    + apply NoDup_seq.
Qed.

Lemma filter_none {A : Type} (P : A -> Prop) `{forall x, Decision (P x)}
    (l : list A) :
  (forall j, j ∈ l -> ~ P j) -> filter P l = [].
Proof.
  induction l as [|y l IH]; intros Hn; [reflexivity|].
  rewrite filter_cons. destruct (decide (P y)) as [Hp|_].
  - exfalso. apply (Hn y); [left | exact Hp].
  - apply IH. intros j Hj. apply Hn. now right.
Qed.

Lemma filter_fixed_singleton {A : Type} `{EqDecision A} (g : A -> A) (x : A)
    (l : list A) :
  NoDup l -> x ∈ l -> (forall j, j ∈ l -> g j = j) ->
  filter (fun j => g j = x) l = [x].
Proof.
  induction 1 as [|y l Hy Hnd IH]; intros Hx Hg.
  - inversion Hx.
  - assert (Hg' : forall j, j ∈ l -> g j = j) by (intros j Hj; apply Hg; now right).
    rewrite filter_cons. rewrite (Hg y) by left.
    destruct (decide (y = x)) as [->|Hne].
    + f_equal. apply filter_none. intros j Hj E.
      rewrite (Hg' j Hj) in E. subst j. contradiction.
    + apply IH; [|exact Hg'].
      inversion Hx; subst; [congruence | assumption].
Qed.

(** Reducing a gradient to the shape it already has changes nothing. *)
Lemma unbroadcast_own_shape (s : list nat) (f : list nat -> npfloat) :
  unbroadcast (Np.build s f) s = Ok (Np.build s f).
Proof.
  unfold unbroadcast. simpl Np.shape. rewrite broadcast_shapes_refl.
  rewrite decide_True by reflexivity. f_equal. apply build_ext.
  intros idx H.
  rewrite (filter_fixed_singleton (Np.bidx s) idx).
  - simpl. rewrite fsum_singleton. now apply get_build.
  - apply NoDup_indices.
  - apply list_elem_of_In. now apply in_indices.
  - intros j Hj. apply bidx_valid. apply in_indices. now apply list_elem_of_In.
Qed.

(** X5.  The round trip through the context: after a [forward] whose
    prediction requires a gradient, [backward] on the scalar gradient
    [g] returns, at every index, the stored difference divided by the
    leading axis of the difference and multiplied by [g]. *)
Theorem backward_gradient_value (prediction target : Tensor) (c : context)
    (batch_size : nat) (s : list nat) (diff : Np.array npfloat) (g : npfloat) :
  requires_grad prediction = true ->
  Np.shape (data target) = batch_size :: s ->
  Np.subtract (data prediction) (data target) = Ok diff ->
  exists (out grad : Tensor) (c' : context) (m : nat) (s' : list nat),
    MeanSquaredError.forward (PyTensor prediction) (PyTensor target) c
      = (Ok out, c')
    /\ MeanSquaredError.backward (Tensor_of (Np.scalar g)) c' = (Ok grad, c')
    /\ Np.shape diff = m :: s'
    /\ Np.shape (data grad) = m :: s'
    /\ forall idx, Np.valid (m :: s') idx ->
         Np.get NaN (data grad) idx
         = fmul (fdiv (Np.get NaN diff idx) (of_nat m)) g.
Proof.
  intros Hrg Hs Hd.
  pose proof (broadcast2_shape _ _ _ _ _ _ Hd) as Hb.
  assert (Hne : Np.shape diff <> []).
  { rewrite Hs in Hb. now apply broadcast_shapes_nonempty in Hb. }
  destruct (Np.shape diff) as [|m s'] eqn:Hsd; [contradiction|].
  eexists _, _, (<["derivative_core" := diff]> c), m, s'.
  split; [|split; [|split; [reflexivity|]]].
  - rewrite (forward_tensors _ _ _ _ _ _ Hs Hd). now rewrite Hrg.
  - unfold MeanSquaredError.backward.
    unfold mbind, CtxM_bind, cbind, lift, mret, CtxM_ret, cret, getattr.
    rewrite lookup_insert_eq. unfold Np.shape0. rewrite Hsd.
    unfold Np.multiply, Np.broadcast2. simpl Np.shape.
    rewrite ?Hsd, broadcast_shapes_nil_r.
    rewrite unbroadcast_own_shape. reflexivity.
  - split; [reflexivity|]. intros idx Hv. simpl data.
    rewrite get_build by exact Hv.
    rewrite bidx_valid by exact Hv.
    unfold Np.divide_int.
    change NaN with ((fun x => fdiv x (of_nat m)) NaN) at 1.
    rewrite (get_map_ NaN (fun x => fdiv x (of_nat m))). reflexivity.
Qed.

Lemma backward_gradient_value_witness :
  exists (out grad : Tensor) (c' : context),
    MeanSquaredError.forward
      (PyTensor (mk_Tensor (Np.mk_array [2] [Fin 3; Fin 5]) true true))
      (PyTensor (Tensor_of (Np.mk_array [2] [Fin 1; Fin 1]))) ∅
    = (Ok out, c')
    /\ MeanSquaredError.backward (Tensor_of (Np.scalar (Fin 1))) c'
       = (Ok grad, c').
Proof.
  destruct (backward_gradient_value
              (mk_Tensor (Np.mk_array [2] [Fin 3; Fin 5]) true true)
              (Tensor_of (Np.mk_array [2] [Fin 1; Fin 1])) ∅ 2 []
              (Np.mk_array [2] [fsub (Fin 3) (Fin 1); fsub (Fin 5) (Fin 1)])
              (Fin 1))
    as (out & grad & c' & m & s' & Hf & Hb & _); try reflexivity.
  exists out, grad, c'. split; assumption.
Defined.

(** ** The value of the loss *)

Section LossValue.
Local Open Scope R_scope.

Lemma fold_zeros (l : list npfloat) :
  Forall (fun x => x = Fin 0) l -> fold_left fadd l (Fin 0) = Fin 0.
Proof.
  induction 1 as [|x l -> _ IH]; [reflexivity|].
  cbn [fold_left]. now rewrite fadd_zero_r.
Qed.

Lemma fdiv_by_positive_count (r : R) (n : nat) :
  (0 < n)%nat -> fdiv (Fin r) (of_nat n) = Fin (r / INR n) /\ 0 < INR n.
Proof.
  intros Hn. assert (H : 0 < INR n) by (apply lt_0_INR; lia).
  split; [|exact H]. unfold of_nat. apply fdiv_fin. lra.
Qed.

End LossValue.

Section Signs.
Local Open Scope R_scope.

Lemma fnonneg_fin (r : R) : fnonneg (Fin r) <-> 0 <= r.
Proof.
  unfold fnonneg. simpl. destruct (Rle_dec 0 r); split; intros H; auto.
  discriminate.
Qed.

Lemma fnonpos_fin (r : R) : fnonpos (Fin r) <-> r <= 0.
Proof.
  unfold fnonpos. simpl. destruct (Rle_dec r 0); split; intros H; auto.
  discriminate.
Qed.

Lemma fnonneg_cases (x : npfloat) :
  fnonneg x -> (exists r, x = Fin r /\ 0 <= r) \/ x = PInf.
Proof.
  destruct x as [r| | |]; intros H; try discriminate H.
  - left. exists r. split; [reflexivity | now apply fnonneg_fin].
  - now right.
Qed.

Lemma fnonneg_fadd (x y : npfloat) : fnonneg x -> fnonneg y -> fnonneg (fadd x y).
Proof.
  intros Hx Hy.
  destruct (fnonneg_cases x Hx) as [(a & -> & Ha)| ->],
           (fnonneg_cases y Hy) as [(b & -> & Hb)| ->]; try reflexivity.
  apply fnonneg_fin. lra.
Qed.

Lemma fnonneg_fsquare (x : npfloat) : x <> NaN -> fnonneg (fsquare x).
Proof.
  destruct x as [r| | |]; intros H; try reflexivity; [|contradiction].
  apply fnonneg_fin. nra.
Qed.

Lemma fnonneg_fabs (x : npfloat) : x <> NaN -> fnonneg (fabs x).
Proof.
  destruct x as [r| | |]; intros H; try reflexivity; [|contradiction].
  apply fnonneg_fin. apply Rabs_pos.
Qed.

Lemma fnonneg_fold (l : list npfloat) (acc : npfloat) :
  fnonneg acc -> Forall fnonneg l -> fnonneg (fold_left fadd l acc).
Proof.
  intros Ha Hl. revert acc Ha. induction Hl as [|x l Hx _ IH]; intros acc Ha.
  - exact Ha.
  - cbn [fold_left]. apply IH. now apply fnonneg_fadd.
Qed.

Lemma fnonneg_zero : fnonneg (Fin 0).
Proof. apply fnonneg_fin. lra. Qed.

Lemma fnonneg_fdiv_count (x : npfloat) (k : nat) :
  fnonneg x -> (0 < k)%nat -> fnonneg (fdiv x (of_nat k)).
Proof.
  intros Hx Hk. assert (Hpos : 0 < INR k) by (apply lt_0_INR; lia).
  destruct (fnonneg_cases x Hx) as [(r & -> & Hr)| ->].
  - destruct (fdiv_by_positive_count r k Hk) as [E _]. rewrite E.
    apply fnonneg_fin. apply Rmult_le_pos; [exact Hr|].
    left. now apply Rinv_0_lt_compat.
  - unfold of_nat. simpl.
    assert (E : Rcmp0 (INR k) = Gt) by now apply Rcmp0_Gt.
    now rewrite E.
Qed.

(** The mean of non-negative terms. *)
Lemma fnonneg_mean (g : npfloat -> npfloat) (l : list npfloat) (k : nat) :
  (forall x, x <> NaN -> fnonneg (g x)) ->
  Forall (fun x => x <> NaN) l -> (0 < k)%nat ->
  fnonneg (fdiv (fsum (map g l)) (of_nat k)).
Proof.
  intros Hg Hl Hk. apply fnonneg_fdiv_count; [|exact Hk].
  unfold fsum. apply fnonneg_fold; [apply fnonneg_zero|].
  rewrite List.Forall_forall in *. intros y Hy.
  apply in_map_iff in Hy as (x & <- & Hx). apply Hg. now apply Hl.
Qed.

End Signs.

(** X6.  The loss is never negative: with a non-empty batch and no NaN
    in the difference, [forward] returns a Tensor whose value [v]
    satisfies 0 <= v (a non-negative number, or +inf; not NaN). *)
Theorem forward_nonnegative (prediction target : Tensor) (c : context)
    (batch_size : nat) (s : list nat) (diff : Np.array npfloat) :
  Np.shape (data target) = batch_size :: s ->
  0 < batch_size ->
  Np.subtract (data prediction) (data target) = Ok diff ->
  Forall (fun x => x <> NaN) (Np.data diff) ->
  exists v : npfloat,
    fst (MeanSquaredError.forward (PyTensor prediction) (PyTensor target) c)
    = Ok (mk_Tensor (Np.scalar v) (requires_grad prediction)
            (negb (requires_grad prediction)))
    /\ fnonneg v.
Proof.
  intros Hs Hb Hd Hnan. rewrite (forward_tensors _ _ _ _ _ _ Hs Hd). cbn [fst].
  eexists. split; [reflexivity|].
  apply (fnonneg_mean fsquare); [apply fnonneg_fsquare | exact Hnan | lia].
Qed.

Lemma forward_nonnegative_witness :
  exists v : npfloat,
    fst (MeanSquaredError.forward
           (PyTensor (mk_Tensor (Np.mk_array [1] [Fin 3]) true true))
           (PyTensor (Tensor_of (Np.mk_array [1] [Fin 1]))) ∅)
    = Ok (mk_Tensor (Np.scalar v) true false)
    /\ fnonneg v.
Proof.
  apply (forward_nonnegative
           (mk_Tensor (Np.mk_array [1] [Fin 3]) true true)
           (Tensor_of (Np.mk_array [1] [Fin 1])) ∅ 1 []
           (Np.mk_array [1] [fsub (Fin 3) (Fin 1)])).
  - reflexivity.
  - lia.
  - reflexivity.
  - repeat constructor. discriminate.
Defined.

Lemma get_in_range_fin (a : Np.array npfloat) (idx : list nat) :
  Np.wf a -> Forall is_fin (Np.data a) -> Np.valid (Np.shape a) idx ->
  is_fin (Np.get NaN a idx).
Proof.
  intros Hwf Hfin Hv. unfold Np.get.
  rewrite List.Forall_forall in Hfin. apply Hfin. apply nth_In.
  rewrite Hwf. now apply ravel_lt.
Qed.

(** X7.  The loss of a prediction against itself is zero: for a
    well-formed array of finite values with a non-empty leading axis,
    [forward] on two Tensors that hold it returns the scalar 0. *)
Theorem forward_same_data_zero (a : Np.array npfloat) (rg lf rg' lf' : bool)
    (c : context) (batch_size : nat) (s : list nat) :
  Np.shape a = batch_size :: s ->
  0 < batch_size ->
  Np.wf a ->
  Forall is_fin (Np.data a) ->
  fst (MeanSquaredError.forward (PyTensor (mk_Tensor a rg lf))
         (PyTensor (mk_Tensor a rg' lf')) c)
  = Ok (mk_Tensor (Np.scalar (Fin 0)) rg (negb rg)).
Proof.
  intros Hs Hb Hwf Hfin.
  rewrite (forward_tensors (mk_Tensor a rg lf) (mk_Tensor a rg' lf') c
             batch_size s _ Hs (broadcast2_same_shape NaN NaN fsub a a eq_refl)).
  cbn [fst]. simpl requires_grad. do 2 f_equal.
  assert (E : fsum (map fsquare
                      (Np.data (Np.build (Np.shape a) (fun idx =>
                         fsub (Np.get NaN a idx) (Np.get NaN a idx)))))
              = Fin 0).
  { unfold fsum. apply fold_zeros. simpl Np.data.
    rewrite List.Forall_forall. intros x Hx.
    apply in_map_iff in Hx as (d & <- & Hd).
    apply in_map_iff in Hd as (idx & <- & Hidx).
    apply in_indices in Hidx.
    destruct (get_in_range_fin a idx Hwf Hfin Hidx) as [v ->].
    simpl. f_equal. lra. }
  rewrite E.
  destruct (fdiv_by_positive_count 0 (2 * batch_size)) as [E' Hpos]; [lia|].
  rewrite E'. unfold Rdiv. now rewrite Rmult_0_l.
Qed.

Lemma forward_same_data_zero_witness :
  fst (MeanSquaredError.forward
         (PyTensor (mk_Tensor (Np.mk_array [1] [Fin 3]) true true))
         (PyTensor (mk_Tensor (Np.mk_array [1] [Fin 3]) false true)) ∅)
  = Ok (mk_Tensor (Np.scalar (Fin 0)) true false).
Proof.
  apply (forward_same_data_zero (Np.mk_array [1] [Fin 3]) true true false true
           ∅ 1 []).
  - reflexivity.
  - lia.
  - reflexivity.
  - repeat constructor. now exists 3%R.
Defined.

Lemma bdim_zero_r (a d : nat) : Np.bdim a 0 = Some d -> d = 0.
Proof.
  unfold Np.bdim. destruct (Nat.eqb_spec a 0); [intros [= <-]; assumption|].
  destruct (a =? 1); [now intros [= <-] | discriminate].
Qed.

Lemma bshape_rev_zero (r1 r2 r : list nat) :
  In 0 r2 -> Np.bshape_rev r1 r2 = Some r -> In 0 r.
Proof.
  revert r2 r. induction r1 as [|a r1 IH]; intros r2 r Hin; simpl.
  - intros [= <-]. exact Hin.
  - destruct r2 as [|b r2]; [destruct Hin|].
    destruct (Np.bdim a b) as [d|] eqn:Ed; [|discriminate].
    destruct (Np.bshape_rev r1 r2) as [r'|] eqn:Er; [|discriminate].
    intros [= <-]. destruct Hin as [->|Hin].
    + left. now apply bdim_zero_r in Ed.
    + right. now apply (IH r2).
Qed.

Lemma size_zero (s : list nat) : In 0 s -> Np.size s = 0.
Proof.
  induction s as [|n s IH]; [intros []|]. intros [->|H]; simpl; [reflexivity|].
  change (foldr Nat.mul 1 s) with (Np.size s). rewrite (IH H). lia.
Qed.

Lemma broadcast_empty (s1 s2 r : list nat) :
  In 0 s2 -> Np.broadcast_shapes s1 s2 = Some r -> Np.indices r = [].
Proof.
  unfold Np.broadcast_shapes. intros Hin.
  destruct (Np.bshape_rev (rev s1) (rev s2)) as [r'|] eqn:E; [|discriminate].
  intros [= <-]. apply bshape_rev_zero in E; [|now apply in_rev in Hin].
  apply length_zero_iff_nil. rewrite length_indices. apply size_zero.
  now apply in_rev in E.
Qed.

(** X8.  An empty batch is not an error: when the target's leading
    axis has size 0 the sum is 0.0 and the division 0.0 / 0 makes the
    loss NaN. *)
Theorem forward_empty_batch_nan (prediction target : Tensor) (c : context)
    (s : list nat) (diff : Np.array npfloat) :
  Np.shape (data target) = 0 :: s ->
  Np.subtract (data prediction) (data target) = Ok diff ->
  fst (MeanSquaredError.forward (PyTensor prediction) (PyTensor target) c)
  = Ok (mk_Tensor (Np.scalar NaN) (requires_grad prediction)
          (negb (requires_grad prediction))).
Proof.
  intros Hs Hd. rewrite (forward_tensors _ _ _ _ _ _ Hs Hd). cbn [fst].
  do 3 f_equal. revert Hd. unfold Np.subtract, Np.broadcast2.
  destruct (Np.broadcast_shapes _ _) as [r|] eqn:E; [|discriminate].
  intros [= <-]. simpl Np.data.
  rewrite (broadcast_empty _ _ r (or_introl eq_refl : In 0 (0 :: s)))
    by (rewrite <- Hs; exact E).
  simpl. now rewrite Rcmp0_zero.
Qed.

Lemma forward_empty_batch_nan_witness :
  fst (MeanSquaredError.forward
         (PyTensor (mk_Tensor (Np.mk_array [0] []) true true))
         (PyTensor (Tensor_of (Np.mk_array [0] []))) ∅)
  = Ok (mk_Tensor (Np.scalar NaN) true false).
Proof.
  apply (forward_empty_batch_nan (mk_Tensor (Np.mk_array [0] []) true true)
           (Tensor_of (Np.mk_array [0] [])) ∅ [] (Np.mk_array [0] []));
    reflexivity.
Defined.

(** ** The classical losses in the layouts of the module *)

Lemma abs_loss_layout (wcol yrow : bool) (M n : nat) (X Y W : Np.array npfloat) :
  Np.shape X = [M; n] ->
  Np.shape W = weights_shape wcol n ->
  Np.shape Y = targets_shape yrow M ->
  AbsoluteError.loss X Y W
  = Ok (fdiv (fsum_upto M (fun i => fabs (spec_residual wcol yrow n X Y W i)))
             (of_nat M)).
Proof.
  intros HX HW HY. pose proof (residual_array wcol yrow M n X Y W HX HW HY) as HR.
  unfold AbsoluteError.loss. rewrite (shape0_matrix M n X HX).
  unfold mbind, result_bind, rbind, mret, result_ret in *.
  destruct (Np.dot X W) as [P|]; [|discriminate]. rewrite HR.
  do 2 f_equal. unfold Np.absolute. rewrite map_build, residual_shape_cases.
  apply (sum_per_sample (wcol || yrow) M
           (fun i => fabs (spec_residual wcol yrow n X Y W i))).
Qed.

Lemma fdiv_empty_sum (f : nat -> npfloat) (k : nat) :
  k = 0 -> fdiv (fsum_upto 0 f) (of_nat k) = NaN.
Proof. intros ->. unfold of_nat, fsum_upto. simpl. now rewrite Rcmp0_zero. Qed.

(** X9.  With no samples (a design matrix of shape (0, n)) the mean
    squared and absolute losses divide 0.0 by 0: both losses are NaN
    and every component of both gradients is NaN; nothing is raised. *)
Theorem empty_design_matrix_nan (wcol yrow : bool) (n : nat)
    (X Y W : Np.array npfloat) :
  Np.shape X = [0; n] ->
  Np.shape W = weights_shape wcol n ->
  Np.shape Y = targets_shape yrow 0 ->
  MeanSquaredError.loss X Y W = Ok NaN
  /\ AbsoluteError.loss X Y W = Ok NaN
  /\ MeanSquaredError.derivative X Y W
     = Ok (Np.build (gradient_shape wcol yrow n) (fun _ => NaN))
  /\ AbsoluteError.derivative X Y W
     = Ok (Np.build (gradient_shape wcol yrow n) (fun _ => NaN)).
Proof.
  intros HX HW HY. repeat split.
  - rewrite (mse_loss_layout wcol yrow 0 n X Y W HX HW HY).
    unfold spec_mse_loss. now rewrite fdiv_empty_sum.
  - rewrite (abs_loss_layout wcol yrow 0 n X Y W HX HW HY).
    now rewrite fdiv_empty_sum.
  - rewrite (mse_derivative_layout wcol yrow 0 n X Y W HX HW HY).
    f_equal. apply build_ext. intros idx _. now apply fdiv_empty_sum.
  - rewrite (abs_derivative_layout wcol yrow 0 n X Y W HX HW HY).
    f_equal. apply build_ext. intros idx _. now apply fdiv_empty_sum.
Qed.

Lemma empty_design_matrix_nan_witness :
  MeanSquaredError.loss (Np.mk_array [0; 1] []) (Np.mk_array [0] [])
    (Np.mk_array [1] [Fin 1]) = Ok NaN.
Proof.
  apply (empty_design_matrix_nan false false 1 (Np.mk_array [0; 1] [])
           (Np.mk_array [0] []) (Np.mk_array [1] [Fin 1])); reflexivity.
Defined.

(** X10.  The logarithmic loss and its derivative compute [1/M] between
    Python ints: with no samples they raise ZeroDivisionError, where
    the other families return NaN. *)
Theorem logarithmic_empty_raises (Sigmoid : SigmoidClass) (wcol : bool)
    (n : nat) (X Y W : Np.array npfloat) :
  Np.shape X = [0; n] ->
  Np.shape W = weights_shape wcol n ->
  LogarithmicError.loss Sigmoid X Y W = Raise ZeroDivisionError
  /\ LogarithmicError.derivative Sigmoid X Y W = Raise ZeroDivisionError.
Proof.
  intros HX HW.
  unfold LogarithmicError.loss, LogarithmicError.derivative.
  rewrite (shape0_matrix 0 n X HX), (dot_matrix_weights wcol 0 n X W HX HW).
  split; reflexivity.
Qed.

Lemma logarithmic_empty_raises_witness :
  LogarithmicError.loss (mk_Sigmoid (fun x => x)) (Np.mk_array [0; 1] [])
    (Np.mk_array [0] []) (Np.mk_array [1] [Fin 1]) = Raise ZeroDivisionError.
Proof.
  apply (logarithmic_empty_raises (mk_Sigmoid (fun x => x)) false 1
           (Np.mk_array [0; 1] []) (Np.mk_array [0] [])
           (Np.mk_array [1] [Fin 1])); reflexivity.
Defined.

Lemma fsum_upto_zeros (M : nat) (f : nat -> npfloat) :
  (forall i, i < M -> f i = Fin 0) -> fsum_upto M f = Fin 0.
Proof.
  intros H. unfold fsum_upto, fsum. apply fold_zeros.
  rewrite List.Forall_forall. intros x Hx.
  apply in_map_iff in Hx as (i & <- & Hi). apply H. apply in_seq in Hi. lia.
Qed.

Lemma fdiv_zero_by_count (M : nat) : 0 < M -> fdiv (Fin 0) (of_nat M) = Fin 0.
Proof.
  intros HM. destruct (fdiv_by_positive_count 0 M HM) as [E _].
  rewrite E. unfold Rdiv. now rewrite Rmult_0_l.
Qed.

Lemma zero_times_entry (wcol yrow : bool) (n : nat) (X Y W : Np.array npfloat)
    (i j : nat) :
  spec_residual wcol yrow n X Y W i = Fin 0 -> j < n ->
  fmul (Fin 0) (entry X i j) = Fin 0.
Proof.
  intros Hr Hj.
  destruct (zero_residual_finite_row wcol yrow n X Y W i j Hr Hj) as [x ->].
  apply fmul_zero_fin.
Qed.

Lemma gradient_index (wcol yrow : bool) (n : nat) (idx : list nat) :
  Np.valid (gradient_shape wcol yrow n) idx -> default 0 (head idx) < n.
Proof.
  unfold gradient_shape. destruct (wcol || yrow); intros H.
  - apply valid_2_inv in H as (j & a & -> & Hj & _). exact Hj.
  - apply valid_1_inv in H as (j & -> & Hj). exact Hj.
Qed.

(** X11.  At a perfect fit, every residual exactly zero (and at least
    one sample), both losses are 0 and both gradients are 0 in every
    component. *)
Theorem perfect_fit_vanishes (wcol yrow : bool) (M n : nat)
    (X Y W : Np.array npfloat) :
  Np.shape X = [M; n] ->
  Np.shape W = weights_shape wcol n ->
  Np.shape Y = targets_shape yrow M ->
  0 < M ->
  (forall i, i < M -> spec_residual wcol yrow n X Y W i = Fin 0) ->
  MeanSquaredError.loss X Y W = Ok (Fin 0)
  /\ AbsoluteError.loss X Y W = Ok (Fin 0)
  /\ MeanSquaredError.derivative X Y W
     = Ok (Np.build (gradient_shape wcol yrow n) (fun _ => Fin 0))
  /\ AbsoluteError.derivative X Y W
     = Ok (Np.build (gradient_shape wcol yrow n) (fun _ => Fin 0)).
Proof.
  intros HX HW HY HM Hz. repeat split.
  - rewrite (mse_loss_layout wcol yrow M n X Y W HX HW HY). unfold spec_mse_loss.
    rewrite fsum_upto_zeros.
    + f_equal. apply fdiv_zero_by_count. lia.
    + intros i Hi. rewrite (Hz i Hi). simpl. f_equal. lra.
  - rewrite (abs_loss_layout wcol yrow M n X Y W HX HW HY).
    rewrite fsum_upto_zeros.
    + f_equal. now apply fdiv_zero_by_count.
    + intros i Hi. rewrite (Hz i Hi). simpl. f_equal. apply Rabs_R0.
  - rewrite (mse_derivative_layout wcol yrow M n X Y W HX HW HY).
    f_equal. apply build_ext. intros idx Hv. apply gradient_index in Hv.
    unfold spec_mse_derivative. rewrite fsum_upto_zeros.
    + now apply fdiv_zero_by_count.
    + intros i Hi. rewrite (Hz i Hi).
      now apply (zero_times_entry wcol yrow n X Y W i _ (Hz i Hi)).
  - rewrite (abs_derivative_layout wcol yrow M n X Y W HX HW HY).
    f_equal. apply build_ext. intros idx Hv. apply gradient_index in Hv.
    rewrite fsum_upto_zeros.
    + now apply fdiv_zero_by_count.
    + intros i Hi. rewrite (Hz i Hi), guarded_sign_zero.
      now apply (zero_times_entry wcol yrow n X Y W i _ (Hz i Hi)).
Qed.

Lemma perfect_fit_vanishes_witness :
  let X := Np.mk_array [1; 1] [Fin 1] in
  MeanSquaredError.loss X X X = Ok (Fin 0).
Proof.
  intros X.
  apply (perfect_fit_vanishes true true 1 1 X X X); try reflexivity; try lia.
  intros i Hi. assert (i = 0) as -> by lia.
  unfold spec_residual, fsum_upto, fsum, entry, weight_at, target_at.
  simpl. f_equal. lra.
Defined.





(** X13.  The gradients come out in the shape of the weights except in
    one layout: flat weights (n,) with row targets (1, M) give a
    gradient of shape (n, 1). *)
Theorem derivative_shape (wcol yrow : bool) (M n : nat)
    (X Y W : Np.array npfloat) :
  Np.shape X = [M; n] ->
  Np.shape W = weights_shape wcol n ->
  Np.shape Y = targets_shape yrow M ->
  exists G A : Np.array npfloat,
    MeanSquaredError.derivative X Y W = Ok G
    /\ AbsoluteError.derivative X Y W = Ok A
    /\ Np.shape G = (if wcol || yrow then [n; 1] else [n])
    /\ Np.shape A = Np.shape G
    /\ (Np.shape G = Np.shape W <-> wcol = true \/ yrow = false).
Proof.
  intros HX HW HY. eexists _, _.
  split; [apply (mse_derivative_layout wcol yrow M n X Y W HX HW HY)|].
  split; [apply (abs_derivative_layout wcol yrow M n X Y W HX HW HY)|].
  simpl Np.shape. rewrite HW.
  split; [reflexivity|]. split; [reflexivity|].
  unfold gradient_shape, weights_shape.
  destruct wcol, yrow; simpl; split; intros H; auto; try discriminate;
    destruct H; discriminate.
Qed.

Lemma derivative_shape_witness :
  exists G A : Np.array npfloat,
    MeanSquaredError.derivative (Np.mk_array [1; 1] [Fin 1])
      (Np.mk_array [1; 1] [Fin 1]) (Np.mk_array [1] [Fin 1]) = Ok G
    /\ AbsoluteError.derivative (Np.mk_array [1; 1] [Fin 1])
         (Np.mk_array [1; 1] [Fin 1]) (Np.mk_array [1] [Fin 1]) = Ok A
    /\ Np.shape G = [1; 1].
Proof.
  destruct (derivative_shape false true 1 1 (Np.mk_array [1; 1] [Fin 1])
              (Np.mk_array [1; 1] [Fin 1]) (Np.mk_array [1] [Fin 1]))
    as (G & A & HG & HA & Hs & _); try reflexivity.
  exists G, A. repeat split; assumption.
Defined.

(** ** Log-cosh *)

Section Hyperbolic.
Local Open Scope R_scope.

Lemma cosh_opp (x : R) : cosh (- x) = cosh x.
Proof. unfold cosh. rewrite Ropp_involutive. lra. Qed.

Lemma sinh_opp (x : R) : sinh (- x) = - sinh x.
Proof. unfold sinh. rewrite Ropp_involutive. lra. Qed.

Lemma tanh_opp (x : R) : tanh (- x) = - tanh x.
Proof. unfold tanh. rewrite sinh_opp, cosh_opp. unfold Rdiv. lra. Qed.

Lemma tanh_zero : tanh 0 = 0.
Proof. unfold tanh. rewrite sinh_0. unfold Rdiv. lra. Qed.

Lemma fcosh_fsub_sym (x y : npfloat) : fcosh (fsub x y) = fcosh (fsub y x).
Proof.
  destruct x as [a| | |], y as [b| | |]; simpl; try reflexivity.
  f_equal. rewrite <- (cosh_opp (a + - b)). f_equal. lra.
Qed.

Lemma ftanh_fsub_antisym (x y : npfloat) :
  ftanh (fsub x y) = fneg (ftanh (fsub y x)).
Proof.
  destruct x as [a| | |], y as [b| | |]; simpl; try reflexivity;
    try (f_equal; lra).
  f_equal. rewrite <- tanh_opp. f_equal. lra.
Qed.

Lemma fneg_fadd (x y : npfloat) : fneg (fadd x y) = fadd (fneg x) (fneg y).
Proof.
  destruct x as [a| | |], y as [b| | |]; simpl; try reflexivity.
  f_equal. lra.
Qed.

Lemma fold_fadd_fneg (l : list npfloat) (acc : npfloat) :
  fold_left fadd (map fneg l) (fneg acc) = fneg (fold_left fadd l acc).
Proof.
  revert acc. induction l as [|x l IH]; intros acc; [reflexivity|].
  cbn [map fold_left]. rewrite <- fneg_fadd. apply IH.
Qed.

Lemma fsum_fneg (l : list npfloat) : fsum (map fneg l) = fneg (fsum l).
Proof.
  unfold fsum. rewrite <- fold_fadd_fneg. do 2 f_equal. simpl. f_equal. lra.
Qed.

Lemma logcosh_of_equal (v : R) : flog (fcosh (fsub (Fin v) (Fin v))) = Fin 0.
Proof.
  simpl. replace (v + - v) with 0 by lra. rewrite cosh_0.
  assert (E : Rcmp0 1 = Gt) by (apply Rcmp0_Gt; lra).
  rewrite E. f_equal. apply ln_1.
Qed.

Lemma tanh_of_equal (v : R) : ftanh (fsub (Fin v) (Fin v)) = Fin 0.
Proof. simpl. replace (v + - v) with 0 by lra. now rewrite tanh_zero. Qed.

End Hyperbolic.

Lemma bdim_comm (a b : nat) : Np.bdim a b = Np.bdim b a.
Proof.
  unfold Np.bdim.
  destruct (Nat.eqb_spec a b) as [->|Hab].
  - now rewrite Nat.eqb_refl.
  - destruct (Nat.eqb_spec b a) as [E|_]; [congruence|].
    destruct (Nat.eqb_spec a 1) as [->|Ha], (Nat.eqb_spec b 1) as [->|Hb];
      try reflexivity; try contradiction.
Qed.

Lemma bshape_rev_comm (r1 r2 : list nat) :
  Np.bshape_rev r1 r2 = Np.bshape_rev r2 r1.
Proof.
  revert r2. induction r1 as [|a r1 IH]; intros [|b r2]; try reflexivity.
  simpl. now rewrite bdim_comm, IH.
Qed.

Lemma broadcast_shapes_comm (s1 s2 : list nat) :
  Np.broadcast_shapes s1 s2 = Np.broadcast_shapes s2 s1.
Proof. unfold Np.broadcast_shapes. now rewrite bshape_rev_comm. Qed.

(** X14.  Log-cosh is symmetric in its two arguments, and its
    derivative changes sign when they are exchanged (cosh is even,
    tanh is odd); this holds for all arrays, an exchange that fails to
    broadcast failing both ways. *)
Theorem logcosh_symmetry (X Y : Np.array npfloat) :
  Log_cosh.logcosh_loss X Y = Log_cosh.logcosh_loss Y X
  /\ Log_cosh.derivative_logcosh X Y
     = fneg <$> Log_cosh.derivative_logcosh Y X.
Proof.
  unfold Log_cosh.logcosh_loss, Log_cosh.derivative_logcosh, Np.subtract.
  split.
  - unfold Np.broadcast2. rewrite (broadcast_shapes_comm (Np.shape Y)).
    destruct (Np.broadcast_shapes (Np.shape X) (Np.shape Y)) as [s|];
      [|reflexivity].
    unfold mbind, result_bind, rbind, mret, result_ret, fmap, result_fmap, rmap.
    f_equal. unfold Np.cosh, Np.log, Np.sum. rewrite !map_build. simpl Np.data.
    f_equal. apply map_ext. intros idx. f_equal. apply fcosh_fsub_sym.
  - unfold Np.broadcast2. rewrite (broadcast_shapes_comm (Np.shape Y)).
    destruct (Np.broadcast_shapes (Np.shape X) (Np.shape Y)) as [s|];
      [|reflexivity].
    unfold mbind, result_bind, rbind, mret, result_ret, fmap, result_fmap, rmap.
    f_equal. unfold Np.tanh, Np.sum. rewrite !map_build. simpl Np.data.
    rewrite <- fsum_fneg, map_map. f_equal. apply map_ext. intros idx.
    apply ftanh_fsub_antisym.
Qed.

(** X15.  Identical arguments: for a well-formed array of finite
    values, the log-cosh loss of the array against itself is 0 and so
    is the derivative. *)
Theorem logcosh_same_zero (X : Np.array npfloat) :
  Np.wf X ->
  Forall is_fin (Np.data X) ->
  Log_cosh.logcosh_loss X X = Ok (Fin 0)
  /\ Log_cosh.derivative_logcosh X X = Ok (Fin 0).
Proof.
  intros Hwf Hfin.
  unfold Log_cosh.logcosh_loss, Log_cosh.derivative_logcosh, Np.subtract.
  rewrite broadcast2_same_shape by reflexivity.
  unfold mbind, result_bind, rbind, mret, result_ret.
  unfold Np.cosh, Np.log, Np.tanh, Np.sum. rewrite !map_build. simpl Np.data.
  split; f_equal; apply fold_zeros; rewrite List.Forall_forall; intros x Hx;
    apply in_map_iff in Hx as (idx & <- & Hidx); apply in_indices in Hidx;
    destruct (get_in_range_fin X idx Hwf Hfin Hidx) as [v ->].
  - apply logcosh_of_equal.
  - apply tanh_of_equal.
Qed.

Lemma logcosh_same_zero_witness :
  Log_cosh.logcosh_loss (Np.mk_array [2] [Fin 1; Fin 2])
    (Np.mk_array [2] [Fin 1; Fin 2]) = Ok (Fin 0).
Proof.
  apply (logcosh_same_zero (Np.mk_array [2] [Fin 1; Fin 2])).
  - reflexivity.
  - repeat constructor; eexists; reflexivity.
Defined.

(** ** Huber, element by element *)

(** Every element of the array [Huber.derivative] returns: the residual
    itself within [delta], [delta·sign] of it beyond. *)
Lemma huber_derivative_elements (X Y D : Np.array npfloat) (delta : npfloat) :
  Np.subtract X Y = Ok D ->
  exists G,
    Huber.derivative X Y delta = Ok G
    /\ Np.shape G = Np.shape D
    /\ forall idx, Np.valid (Np.shape D) idx ->
         Np.get NaN G idx =
           if fle (fabs (Np.get NaN D idx)) delta
           then Np.get NaN D idx
           else fmul delta (fsign (Np.get NaN D idx)).
Proof.
  intros HD. unfold Huber.derivative. rewrite HD.
  unfold mbind, result_bind, rbind.
  rewrite where_same_shape by reflexivity.
  eexists. split; [reflexivity|]. split; [reflexivity|].
  intros idx Hv. rewrite get_build by exact Hv.
  unfold Np.less_equal_scalar, Np.absolute, Np.scale, Np.sign.
  change false with ((fun y => fle y delta) (fabs NaN)).
  rewrite (get_map_ (fabs NaN) (fun y => fle y delta)).
  rewrite (get_map_ NaN fabs).
  destruct (fle (fabs (Np.get NaN D idx)) delta); [reflexivity|].
  replace NaN with (fmul delta (fsign NaN)) at 1 by (destruct delta; reflexivity).
  rewrite (get_map_ (fsign NaN) (fun y => fmul delta y)).
  now rewrite (get_map_ NaN fsign).
Qed.

Section HuberElements.
Local Open Scope R_scope.

Lemma fle_fin (a b : R) : fle (Fin a) (Fin b) = true <-> a <= b.
Proof. simpl. destruct (Rle_dec a b); split; intros H; auto; discriminate. Qed.

Lemma huber_clip (delta d : R) :
  0 <= delta ->
  exists g,
    (if fle (fabs (Fin d)) (Fin delta) then Fin d
     else fmul (Fin delta) (fsign (Fin d))) = Fin g
    /\ Rabs g <= delta
    /\ (Rabs d <= delta -> g = d)
    /\ (delta < Rabs d -> d < 0 -> g = - delta)
    /\ (delta < Rabs d -> 0 < d -> g = delta).
Proof.
  intros Hd. simpl fabs. destruct (fle (Fin (Rabs d)) (Fin delta)) eqn:E.
  - apply fle_fin in E. exists d. repeat split; auto; intros; lra.
  - assert (Hout : delta < Rabs d).
    { destruct (Rle_dec (Rabs d) delta) as [H|H]; [|lra].
      apply fle_fin in H. congruence. }
    simpl. destruct (Rcmp0 d) eqn:Ed.
    + apply Rcmp0_Eq in Ed. subst d. rewrite Rabs_R0 in Hout. lra.
    + apply Rcmp0_Lt in Ed. exists (delta * -1). split; [reflexivity|].
      repeat split; intros; try lra.
      replace (delta * -1) with (- delta) by lra. rewrite Rabs_Ropp.
      rewrite Rabs_right; lra.
    + apply Rcmp0_Gt in Ed. exists (delta * 1). split; [reflexivity|].
      repeat split; intros; try lra.
      replace (delta * 1) with delta by lra. rewrite Rabs_right; lra.
Qed.

Lemma huber_loss_sign (delta d : R) :
  exists l,
    (if fle (fabs (Fin d)) (Fin delta) then Huber_smooth (Fin d)
     else Huber_linear (Fin delta) (Fin d)) = l
    /\ (0 <= delta -> fnonneg l)
    /\ (delta < 0 -> fnonpos l).
Proof.
  simpl fabs. destruct (fle (Fin (Rabs d)) (Fin delta)) eqn:E.
  - apply fle_fin in E. eexists. split; [reflexivity|].
    split; intros H.
    + apply fnonneg_fin. nra.
    + pose proof (Rabs_pos d). lra.
  - assert (Hout : delta < Rabs d).
    { destruct (Rle_dec (Rabs d) delta) as [H|H]; [|lra].
      apply fle_fin in H. congruence. }
    pose proof (Rabs_pos d) as Hp.
    exists (Fin (delta * (Rabs d + - (1 / 2 * delta)))). split; [reflexivity|].
    split; intros H.
    + apply fnonneg_fin. apply Rmult_le_pos; lra.
    + apply fnonpos_fin.
      assert (0 < - delta * (Rabs d + - (1 / 2 * delta)))
        by (apply Rmult_lt_0_compat; lra).
      lra.
Qed.

End HuberElements.

(** X16.  The Huber derivative is the residual clipped to
    [-delta, delta]: for [delta >= 0], at every element with a finite
    residual [d] it returns a finite [g] with |g| <= delta, equal to
    [d] when |d| <= delta and to -delta or delta beyond, by the sign of
    [d]. *)
Theorem huber_derivative_clipped (X Y D : Np.array npfloat) (delta d : R)
    (idx : list nat) :
  (0 <= delta)%R ->
  Np.subtract X Y = Ok D ->
  Np.valid (Np.shape D) idx ->
  Np.get NaN D idx = Fin d ->
  exists (G : Np.array npfloat) (g : R),
    Huber.derivative X Y (Fin delta) = Ok G
    /\ Np.get NaN G idx = Fin g
    /\ (Rabs g <= delta)%R
    /\ ((Rabs d <= delta)%R -> g = d)
    /\ ((delta < Rabs d)%R -> (d < 0)%R -> g = (- delta)%R)
    /\ ((delta < Rabs d)%R -> (0 < d)%R -> g = delta).
Proof.
  intros Hdelta HD Hv Hd.
  destruct (huber_derivative_elements X Y D (Fin delta) HD) as (G & HG & _ & Hel).
  destruct (huber_clip delta d Hdelta) as (g & Hg & Hrest).
  exists G, g. split; [exact HG|]. split; [|exact Hrest].
  now rewrite (Hel idx Hv), Hd.
Qed.

Lemma huber_derivative_clipped_witness :
  exists (G : Np.array npfloat) (g : R),
    Huber.derivative (Np.mk_array [1] [Fin 5]) (Np.mk_array [1] [Fin 1])
      (Fin 1) = Ok G
    /\ Np.get NaN G [0] = Fin g
    /\ (Rabs g <= 1)%R.
Proof.
  destruct (huber_derivative_clipped (Np.mk_array [1] [Fin 5])
              (Np.mk_array [1] [Fin 1])
              (Np.mk_array [1] [fsub (Fin 5) (Fin 1)]) 1 (5 + - 1) [0])
    as (G & g & HG & Hg & Hb & _).
  - lra.
  - reflexivity.
  - repeat constructor.
  - reflexivity.
  - exists G, g. repeat split; assumption.
Defined.

(** X17.  The sign of the Huber loss follows the sign of [delta], which
    the function does not check: at every element with a finite
    residual the loss [l] satisfies 0 <= l when [delta >= 0] and
    l <= 0 when [delta < 0] (in both cases it is not NaN). *)
Theorem huber_loss_sign_of_delta (X Y D : Np.array npfloat) (delta d : R)
    (idx : list nat) :
  Np.subtract X Y = Ok D ->
  Np.valid (Np.shape D) idx ->
  Np.get NaN D idx = Fin d ->
  exists L : Np.array npfloat,
    Huber.loss X Y (Fin delta) = Ok L
    /\ ((0 <= delta)%R -> fnonneg (Np.get NaN L idx))
    /\ ((delta < 0)%R -> fnonpos (Np.get NaN L idx)).
Proof.
  intros HD Hv Hd.
  destruct (huber_loss_elements X Y D (Fin delta) HD) as (L & HL & _ & Hel).
  destruct (huber_loss_sign delta d) as (l & Hl & Hrest).
  exists L. split; [exact HL|].
  now rewrite (Hel idx Hv), Hd, Hl.
Qed.

Lemma huber_loss_sign_of_delta_witness :
  exists L : Np.array npfloat,
    Huber.loss (Np.mk_array [1] [Fin 5]) (Np.mk_array [1] [Fin 1]) (Fin 1)
      = Ok L
    /\ ((0 <= 1)%R -> fnonneg (Np.get NaN L [0])).
Proof.
  destruct (huber_loss_sign_of_delta (Np.mk_array [1] [Fin 5])
              (Np.mk_array [1] [Fin 1])
              (Np.mk_array [1] [fsub (Fin 5) (Fin 1)]) 1 (5 + - 1) [0])
    as (L & HL & Hpos & _).
  - reflexivity.
  - repeat constructor.
  - reflexivity.
  - exists L. split; assumption.
Defined.

(** X18.  A residual that is NaN falls through the comparison to the
    linear branch and stays NaN in both the Huber loss and its
    derivative. *)
Theorem huber_nan_propagates (X Y D : Np.array npfloat) (delta : npfloat)
    (idx : list nat) :
  Np.subtract X Y = Ok D ->
  Np.valid (Np.shape D) idx ->
  Np.get NaN D idx = NaN ->
  exists L G : Np.array npfloat,
    Huber.loss X Y delta = Ok L
    /\ Huber.derivative X Y delta = Ok G
    /\ Np.get NaN L idx = NaN
    /\ Np.get NaN G idx = NaN.
Proof.
  intros HD Hv Hd.
  destruct (huber_loss_elements X Y D delta HD) as (L & HL & _ & HelL).
  destruct (huber_derivative_elements X Y D delta HD) as (G & HG & _ & HelG).
  exists L, G. split; [exact HL|]. split; [exact HG|].
  rewrite (HelL idx Hv), (HelG idx Hv), Hd.
  split; destruct delta; reflexivity.
Qed.

Lemma huber_nan_propagates_witness :
  exists L G : Np.array npfloat,
    Huber.loss (Np.mk_array [1] [NaN]) (Np.mk_array [1] [Fin 1]) (Fin 1) = Ok L
    /\ Huber.derivative (Np.mk_array [1] [NaN]) (Np.mk_array [1] [Fin 1])
         (Fin 1) = Ok G
    /\ Np.get NaN L [0] = NaN
    /\ Np.get NaN G [0] = NaN.
Proof.
  apply (huber_nan_propagates (Np.mk_array [1] [NaN]) (Np.mk_array [1] [Fin 1])
           (Np.mk_array [1] [fsub NaN (Fin 1)]) (Fin 1) [0]).
  - reflexivity.
  - repeat constructor.
  - reflexivity.
Defined.

(** ** The logarithmic error and the cosine similarity *)

(** The array [H = sigmoid.activation(np.dot(X, W).T)], sample by
    sample. *)
Lemma hypothesis_array (Sigmoid : SigmoidClass) (wcol : bool) (M n : nat)
    (X W : Np.array npfloat) :
  Np.shape X = [M; n] ->
  Np.shape W = weights_shape wcol n ->
  (P ← Np.dot X W; mret (Np.map_ (activation Sigmoid) (Np.T P)))
  = Ok (Np.build (sample_shape wcol M) (fun idx =>
          spec_hypothesis Sigmoid wcol n X W (default 0 (last idx)))).
Proof.
  intros HX HW. rewrite (dot_matrix_weights wcol M n X W HX HW).
  unfold mbind, result_bind, rbind, mret, result_ret.
  rewrite T_build, map_build. f_equal.
  destruct wcol; simpl rev; apply build_ext; intros idx H.
  - apply valid_2_inv in H as (a & i & -> & Ha & Hi). reflexivity.
  - apply valid_1_inv in H as (i & -> & Hi). reflexivity.
Qed.

(** An operation between a per-sample array and a targets-shaped
    array, in either order. *)
Lemma samples_op_targets (b yrow : bool) (M : nat) (u ty : nat -> npfloat)
    (Yg : Np.array npfloat) (f : npfloat -> npfloat -> npfloat) :
  Np.shape Yg = targets_shape yrow M ->
  (forall i, i < M -> Np.get NaN Yg (if yrow then [0; i] else [i]) = ty i) ->
  Np.broadcast2 NaN NaN f
    (Np.build (sample_shape b M) (fun idx => u (default 0 (last idx)))) Yg
  = Ok (Np.build (sample_shape (b || yrow) M) (fun idx =>
          f (u (default 0 (last idx))) (ty (default 0 (last idx))))).
Proof.
  intros HY Hty. unfold Np.broadcast2. simpl Np.shape. rewrite HY.
  destruct b, yrow; unfold targets_shape, sample_shape in *;
    simpl orb; unfold Np.broadcast_shapes; simpl; rewrite ?bdim_refl; simpl;
    f_equal; apply build_ext; intros idx H.
  - apply valid_2_inv in H as (a & i & -> & Ha & Hi).
    assert (a = 0) as -> by lia.
    rewrite (bidx_valid [1; M]) by valid_tac.
    rewrite get_build by valid_tac. rewrite (Hty i Hi). reflexivity.
  - apply valid_2_inv in H as (a & i & -> & Ha & Hi).
    assert (a = 0) as -> by lia.
    rewrite (bidx_valid [1; M]) by valid_tac.
    rewrite (bidx_row M 0 i) by lia.
    rewrite get_build by valid_tac. rewrite (Hty i Hi). reflexivity.
  - apply valid_2_inv in H as (a & i & -> & Ha & Hi).
    assert (a = 0) as -> by lia.
    rewrite (bidx_valid [1; M]) by valid_tac.
    rewrite (bidx_row M 0 i) by lia.
    rewrite get_build by valid_tac. rewrite (Hty i Hi). reflexivity.
  - apply valid_1_inv in H as (i & -> & Hi).
    rewrite !(bidx_valid [M]) by valid_tac.
    rewrite get_build by valid_tac. rewrite (Hty i Hi). reflexivity.
Qed.

Lemma targets_op_samples (b yrow : bool) (M : nat) (u ty : nat -> npfloat)
    (Yg : Np.array npfloat) (f : npfloat -> npfloat -> npfloat) :
  Np.shape Yg = targets_shape yrow M ->
  (forall i, i < M -> Np.get NaN Yg (if yrow then [0; i] else [i]) = ty i) ->
  Np.broadcast2 NaN NaN f Yg
    (Np.build (sample_shape b M) (fun idx => u (default 0 (last idx))))
  = Ok (Np.build (sample_shape (b || yrow) M) (fun idx =>
          f (ty (default 0 (last idx))) (u (default 0 (last idx))))).
Proof.
  intros HY Hty.
  pose proof (samples_op_targets b yrow M u ty Yg (fun x y => f y x) HY Hty) as H.
  unfold Np.broadcast2 in *. rewrite broadcast_shapes_comm.
  destruct (Np.broadcast_shapes _ _) as [s|]; [|discriminate].
  injection H as Hs Hd. subst s. unfold Np.build. do 2 f_equal. exact Hd.
Qed.

Lemma target_at_map (g : npfloat -> npfloat) (yrow : bool)
    (Y : Np.array npfloat) (i : nat) :
  g NaN = NaN ->
  Np.get NaN (Np.map_ g Y) (if yrow then [0; i] else [i])
  = g (target_at yrow Y i).
Proof.
  intros Hg. unfold target_at. rewrite <- Hg at 1. apply get_map_.
Qed.

Lemma Ok_inj {A : Type} (a b : A) : Ok a = Ok b -> a = b.
Proof. now intros [= ->]. Qed.

Lemma py_inv_pos (M : nat) : 0 < M -> py_inv M = Ok (Fin (1 / INR M)).
Proof. destruct M; [lia | reflexivity]. Qed.

Lemma sample_shape_cases (b : bool) (M : nat) :
  sample_shape b M = if b then [1; M] else [M].
Proof. reflexivity. Qed.

(** [np.dot(X.T, D.T)] for a per-sample array [D]. *)
Lemma dot_transposed_samples (b : bool) (M n : nat) (d : nat -> npfloat)
    (X : Np.array npfloat) :
  Np.shape X = [M; n] ->
  Np.dot (Np.T X)
    (Np.T (Np.build (sample_shape b M) (fun idx => d (default 0 (last idx)))))
  = Ok (Np.build (if b then [n; 1] else [n]) (fun idx =>
          fsum_upto M (fun t =>
            fmul (entry X t (default 0 (head idx))) (d t)))).
Proof.
  intros HX. rewrite T_build. unfold Np.T at 1. rewrite HX. simpl rev at 1.
  unfold Np.dot. simpl Np.shape.
  destruct b; simpl; rewrite decide_True by reflexivity;
    f_equal; apply build_ext; intros idx H.
  - apply valid_2_inv in H as (j & a & -> & Hj & Ha).
    assert (a = 0) as -> by lia. simpl.
    apply fsum_upto_ext. intros t Ht.
    rewrite !get_build by valid_tac. reflexivity.
  - apply valid_1_inv in H as (j & -> & Hj). simpl.
    apply fsum_upto_ext. intros t Ht.
    rewrite !get_build by valid_tac. reflexivity.
Qed.

(** X19.  The logarithmic error in the layouts of the module, for at
    least one sample: the loss is
    (1/M)·sum_i(-y_i·log h_i - (1 - y_i)·log(1 - h_i)) and component
    [j] of the derivative is (1/M)·sum_i X[i,j]·(h_i - y_i), with
    h_i = sigmoid((X·W)_i). *)
Theorem logarithmic_formulas (Sigmoid : SigmoidClass) (wcol yrow : bool)
    (M n : nat) (X Y W : Np.array npfloat) :
  Np.shape X = [M; n] ->
  Np.shape W = weights_shape wcol n ->
  Np.shape Y = targets_shape yrow M ->
  0 < M ->
  LogarithmicError.loss Sigmoid X Y W
    = Ok (spec_log_loss Sigmoid wcol yrow M n X Y W)
  /\ LogarithmicError.derivative Sigmoid X Y W
     = Ok (Np.build (gradient_shape wcol yrow n) (fun idx =>
             spec_log_derivative Sigmoid wcol yrow M n X Y W
               (default 0 (head idx)))).
Proof.
  intros HX HW HY HM.
  pose proof (hypothesis_array Sigmoid wcol M n X W HX HW) as HH.
  unfold LogarithmicError.loss, LogarithmicError.derivative.
  unfold Sigmoid_getattr. simpl String.eqb.
  unfold mbind, result_bind, rbind, mret, result_ret in *.
  rewrite (shape0_matrix M n X HX). cbv beta iota.
  destruct (Np.dot X W) as [P|]; [|discriminate]. apply Ok_inj in HH.
  rewrite HH, (py_inv_pos M HM). split.
  - unfold Np.multiply, Np.negative, Np.rsub_scalar, Np.log. rewrite !map_build.
    rewrite (targets_op_samples wcol yrow M
               (fun i => flog (spec_hypothesis Sigmoid wcol n X W i))
               (fun i => fneg (target_at yrow Y i)) _ fmul)
      by (rewrite ?HY; auto; intros; now apply (target_at_map fneg)).
    rewrite (targets_op_samples wcol yrow M
               (fun i => flog (fsub (Fin 1) (spec_hypothesis Sigmoid wcol n X W i)))
               (fun i => fsub (Fin 1) (target_at yrow Y i)) _ fmul)
      by (rewrite ?HY; auto; intros;
          now apply (target_at_map (fun y => fsub (Fin 1) y))).
    unfold Np.subtract. rewrite broadcast2_same_shape by reflexivity.
    simpl Np.shape. unfold spec_log_loss. do 2 f_equal.
    rewrite <- (sum_per_sample (wcol || yrow) M). f_equal.
    apply build_ext. intros idx Hv. now rewrite !get_build.
  - unfold Np.subtract.
    rewrite (samples_op_targets wcol yrow M
               (spec_hypothesis Sigmoid wcol n X W) (target_at yrow Y) _ fsub)
      by (rewrite ?HY; auto).
    rewrite (dot_transposed_samples (wcol || yrow) M n
               (fun i => fsub (spec_hypothesis Sigmoid wcol n X W i)
                              (target_at yrow Y i)) X HX).
    unfold Np.scale. rewrite map_build. reflexivity.
Qed.

Lemma logarithmic_formulas_witness :
  let S := mk_Sigmoid (fun x => x) in
  let X := Np.mk_array [1; 1] [Fin 1] in
  LogarithmicError.loss S X X X = Ok (spec_log_loss S true true 1 1 X X X).
Proof.
  intros S X.
  apply (logarithmic_formulas S true true 1 1 X X X); try reflexivity. lia.
Defined.

(** X20.  The cosine similarity, unlike the other families, does not
    take targets laid out as a row: with Y of shape (1, M) and more
    than one sample (or none), [np.dot(H, Y)] finds the shapes not
    aligned and the call raises ValueError. *)
Theorem cosine_row_targets_raise (Sigmoid : SigmoidClass) (wcol : bool)
    (M n : nat) (X Y W : Np.array npfloat) :
  Np.shape X = [M; n] ->
  Np.shape W = weights_shape wcol n ->
  Np.shape Y = [1; M] ->
  M <> 1 ->
  CosineSimilarity.loss Sigmoid X Y W = Raise (ValueError "shapes not aligned").
Proof.
  intros HX HW HY HM.
  pose proof (hypothesis_array Sigmoid wcol M n X W HX HW) as HH.
  unfold CosineSimilarity.loss, Sigmoid_getattr. simpl String.eqb.
  unfold mbind, result_bind, rbind, mret, result_ret in *.
  destruct (Np.dot X W) as [P|]; [|discriminate]. apply Ok_inj in HH.
  rewrite HH. unfold Np.dot. simpl Np.shape. rewrite HY.
  destruct wcol; simpl; rewrite decide_False by congruence; reflexivity.
Qed.

Lemma cosine_row_targets_raise_witness :
  CosineSimilarity.loss (mk_Sigmoid (fun x => x))
    (Np.mk_array [2; 1] [Fin 1; Fin 2]) (Np.mk_array [1; 2] [Fin 1; Fin 0])
    (Np.mk_array [1; 1] [Fin 1])
  = Raise (ValueError "shapes not aligned").
Proof.
  apply (cosine_row_targets_raise (mk_Sigmoid (fun x => x)) true 2 1
           (Np.mk_array [2; 1] [Fin 1; Fin 2])
           (Np.mk_array [1; 2] [Fin 1; Fin 0])
           (Np.mk_array [1; 1] [Fin 1])); try reflexivity. lia.
Defined.

(** [np.dot] of a per-sample array with flat targets: one number. *)
Lemma dot_samples_flat (b : bool) (M : nat) (u : nat -> npfloat)
    (Y : Np.array npfloat) :
  Np.shape Y = [M] ->
  Np.dot (Np.build (sample_shape b M) (fun idx => u (default 0 (last idx)))) Y
  = Ok (Np.build (if b then [1] else []) (fun _ =>
          fsum_upto M (fun t => fmul (u t) (target_at false Y t)))).
Proof.
  intros HY. unfold Np.dot. simpl Np.shape. rewrite HY.
  destruct b; simpl; rewrite decide_True by reflexivity;
    f_equal; apply build_ext; intros idx H.
  - apply valid_1_inv in H as (a & -> & Ha). assert (a = 0) as -> by lia.
    apply fsum_upto_ext. intros t Ht. simpl.
    rewrite get_build by valid_tac. reflexivity.
  - inversion H; subst. apply fsum_upto_ext. intros t Ht. simpl.
    rewrite get_build by valid_tac. reflexivity.
Qed.

Lemma sum_one_element (b : bool) (v : npfloat) :
  Np.sum (Np.build (if b then [1] else []) (fun _ => v)) = v.
Proof. unfold Np.sum. destruct b; simpl Np.data; apply fsum_singleton. Qed.

(** X21.  With flat targets (M,) the cosine similarity is
    (1 - H·Y / (|H|·|Y|))·|Y|, with H·Y = sum_i h_i·y_i,
    |H| = (sum_i h_i²) ** 0.5 and |Y| = (sum Y²) ** 0.5. *)
Theorem cosine_flat_targets (Sigmoid : SigmoidClass) (wcol : bool)
    (M n : nat) (X Y W : Np.array npfloat) :
  Np.shape X = [M; n] ->
  Np.shape W = weights_shape wcol n ->
  Np.shape Y = [M] ->
  CosineSimilarity.loss Sigmoid X Y W
  = Ok (spec_cosine_loss Sigmoid wcol M n X Y W).
Proof.
  intros HX HW HY.
  pose proof (hypothesis_array Sigmoid wcol M n X W HX HW) as HH.
  unfold CosineSimilarity.loss, Sigmoid_getattr. simpl String.eqb.
  unfold mbind, result_bind, rbind, mret, result_ret in *.
  destruct (Np.dot X W) as [P|]; [|discriminate]. apply Ok_inj in HH.
  rewrite HH. unfold spec_cosine_loss.
  assert (Hsq : Np.sum (Np.square
                  (Np.build (sample_shape wcol M) (fun idx =>
                     spec_hypothesis Sigmoid wcol n X W (default 0 (last idx)))))
                = fsum_upto M
                    (fun i => fsquare (spec_hypothesis Sigmoid wcol n X W i))).
  { unfold Np.square. rewrite map_build, sample_shape_cases.
    apply (sum_per_sample wcol M
             (fun i => fsquare (spec_hypothesis Sigmoid wcol n X W i))). }
  rewrite Hsq.
  rewrite (dot_samples_flat wcol M (spec_hypothesis Sigmoid wcol n X W) Y HY).
  rewrite sum_one_element. reflexivity.
Qed.

Lemma cosine_flat_targets_witness :
  let S := mk_Sigmoid (fun x => x) in
  let X := Np.mk_array [1; 1] [Fin 1] in
  let Y := Np.mk_array [1] [Fin 1] in
  CosineSimilarity.loss S X Y X = Ok (spec_cosine_loss S true 1 1 X Y X).
Proof.
  intros S X Y.
  apply (cosine_flat_targets S true 1 1 X Y X); reflexivity.
Defined.

(** ** Further properties of the legacy losses *)

(** X22.  The legacy losses do not depend on how the targets are laid
    out: the same M values as a row (1, M) or flat (M,) give the same
    mean squared loss and the same absolute loss. *)
Theorem legacy_loss_layout_independent (wcol : bool) (M n : nat)
    (X W : Np.array npfloat) (targets : list npfloat) :
  Np.shape X = [M; n] ->
  Np.shape W = weights_shape wcol n ->
  MeanSquaredError.loss X (Np.mk_array [1; M] targets) W
  = MeanSquaredError.loss X (Np.mk_array [M] targets) W
  /\ AbsoluteError.loss X (Np.mk_array [1; M] targets) W
     = AbsoluteError.loss X (Np.mk_array [M] targets) W.
Proof.
  intros HX HW. split.
  - rewrite (mse_loss_layout wcol true M n X (Np.mk_array [1; M] targets) W
               HX HW eq_refl).
    rewrite (mse_loss_layout wcol false M n X (Np.mk_array [M] targets) W
               HX HW eq_refl).
    reflexivity.
  - rewrite (abs_loss_layout wcol true M n X (Np.mk_array [1; M] targets) W
               HX HW eq_refl).
    rewrite (abs_loss_layout wcol false M n X (Np.mk_array [M] targets) W
               HX HW eq_refl).
    reflexivity.
Qed.

Lemma legacy_loss_layout_independent_witness :
  MeanSquaredError.loss (Np.mk_array [2; 1] [Fin 1; Fin 2])
    (Np.mk_array [1; 2] [Fin 0; Fin 1]) (Np.mk_array [1] [Fin 1])
  = MeanSquaredError.loss (Np.mk_array [2; 1] [Fin 1; Fin 2])
      (Np.mk_array [2] [Fin 0; Fin 1]) (Np.mk_array [1] [Fin 1]).
Proof.
  apply (legacy_loss_layout_independent false 2 1
           (Np.mk_array [2; 1] [Fin 1; Fin 2]) (Np.mk_array [1] [Fin 1])
           [Fin 0; Fin 1]); reflexivity.
Defined.

(** X23.  With at least one sample and no NaN among the residuals, the
    legacy mean squared loss and the absolute loss are never negative:
    each is a value [v] with 0 <= v (a non-negative number, or +inf;
    not NaN). *)
Theorem legacy_losses_nonnegative (wcol yrow : bool) (M n : nat)
    (X Y W : Np.array npfloat) :
  Np.shape X = [M; n] ->
  Np.shape W = weights_shape wcol n ->
  Np.shape Y = targets_shape yrow M ->
  0 < M ->
  (forall i, i < M -> spec_residual wcol yrow n X Y W i <> NaN) ->
  exists r a : npfloat,
    MeanSquaredError.loss X Y W = Ok r
    /\ AbsoluteError.loss X Y W = Ok a
    /\ fnonneg r /\ fnonneg a.
Proof.
  intros HX HW HY HM Hnan.
  assert (Hl : Forall (fun x => x <> NaN)
                 (map (spec_residual wcol yrow n X Y W) (seq 0 M))).
  { rewrite List.Forall_forall. intros x Hx.
    apply in_map_iff in Hx as (i & <- & Hi). apply Hnan.
    apply in_seq in Hi. lia. }
  eexists _, _.
  split; [apply (mse_loss_layout wcol yrow M n X Y W HX HW HY)|].
  split; [apply (abs_loss_layout wcol yrow M n X Y W HX HW HY)|].
  unfold spec_mse_loss, fsum_upto. split.
  - rewrite <- (map_map (spec_residual wcol yrow n X Y W) fsquare).
    apply (fnonneg_mean fsquare); [apply fnonneg_fsquare | exact Hl | lia].
  - rewrite <- (map_map (spec_residual wcol yrow n X Y W) fabs).
    apply (fnonneg_mean fabs); [apply fnonneg_fabs | exact Hl | exact HM].
Qed.

Lemma legacy_losses_nonnegative_witness :
  let X := Np.mk_array [1; 1] [Fin 1] in
  exists r a : npfloat,
    MeanSquaredError.loss X X X = Ok r
    /\ AbsoluteError.loss X X X = Ok a
    /\ fnonneg r /\ fnonneg a.
Proof.
  intros X.
  apply (legacy_losses_nonnegative true true 1 1 X X X); try reflexivity; try lia.
  intros i Hi. assert (i = 0) as -> by lia.
  unfold spec_residual, fsum_upto, fsum, entry, weight_at, target_at.
  simpl. discriminate.
Defined.

(** ** Huber is symmetric *)

Section HuberSymmetry.
Local Open Scope R_scope.

Lemma fabs_fsub_sym (x y : npfloat) : fabs (fsub x y) = fabs (fsub y x).
Proof.
  destruct x as [a| | |], y as [b| | |]; simpl; try reflexivity.
  f_equal. rewrite <- (Rabs_Ropp (a + - b)). f_equal. lra.
Qed.

Lemma fsquare_fsub_sym (x y : npfloat) : fsquare (fsub x y) = fsquare (fsub y x).
Proof.
  destruct x as [a| | |], y as [b| | |]; simpl; try reflexivity.
  f_equal. lra.
Qed.

End HuberSymmetry.

(** X24.  The Huber loss is symmetric in its two arrays: exchanging
    them gives the same array of losses (and fails to broadcast both
    ways when it fails). *)
Theorem huber_loss_symmetric (X Y : Np.array npfloat) (delta : npfloat) :
  Huber.loss X Y delta = Huber.loss Y X delta.
Proof.
  unfold Huber.loss, Np.subtract, Np.broadcast2.
  rewrite (broadcast_shapes_comm (Np.shape Y)).
  destruct (Np.broadcast_shapes (Np.shape X) (Np.shape Y)) as [s|];
    [|reflexivity].
  unfold mbind, result_bind, rbind.
  unfold Np.less_equal_scalar, Np.absolute, Np.scale, Np.power2, Np.sub_scalar.
  rewrite !map_build. rewrite !where_same_shape by reflexivity.
  simpl Np.shape. f_equal. apply build_ext. intros idx Hv.
  rewrite !get_build by exact Hv.
  now rewrite fabs_fsub_sym, fsquare_fsub_sym.
Qed.

(** ** The context does not reach the result of [forward] *)

(** X25.  [forward] never reads the context: the Tensor it returns, or
    the error it raises, is the same whatever the context holds (a
    context left by an earlier call included). *)
Theorem forward_result_ctx_independent (prediction target : pyobj)
    (c1 c2 : context) :
  fst (MeanSquaredError.forward prediction target c1)
  = fst (MeanSquaredError.forward prediction target c2).
Proof.
  unfold MeanSquaredError.forward.
  destruct (negb _); [reflexivity|].
  unfold mbind, CtxM_bind, cbind, lift, mret, CtxM_ret, cret, setattr.
  destruct (attr_requires_grad prediction) as [rg|]; [|reflexivity].
  destruct (attr_data target) as [td|]; [|reflexivity].
  destruct (Np.shape0 td) as [n|]; [|reflexivity].
  destruct (attr_data prediction) as [pd|]; [|reflexivity].
  destruct (Np.subtract pd td) as [d|]; [|reflexivity].
  destruct rg; reflexivity.
Qed.
